(** * The hex decoder and dataset builder of the OpenThread power-save example

    A shallow embedding of [hex_digit_to_int], [hex_string_to_binary] and
    [create_config_network] from
    [examples/openthread/ot_power_save/main/esp_ot_power_save.c], with the
    properties its specification states about them.

    The target is a 32-bit SoC: [int] and [size_t] are 32 bits wide, [char]
    is one byte.  Machine integers are modelled as [Z] with each conversion
    written out.  No object of the target is larger than [INT_MAX] bytes, so
    the strings the decoder can be given satisfy [strlen s <= INT_MAX]; the
    theorems about it carry this bound. *)

From Stdlib Require Import ZArith Ascii String Lia Bool.
From stdpp Require Import base list.

Local Open Scope Z_scope.

(** ** Machine integers *)

Module MachineInt.

Definition INT_MAX : Z := 2 ^ 31 - 1.

Definition to_uint8 (z : Z) : Z := z mod 2 ^ 8.
Definition to_uint16 (z : Z) : Z := z mod 2 ^ 16.
Definition to_size_t (z : Z) : Z := z mod 2 ^ 32.

(** Conversion to [int]: the value modulo 2^32, read as two's complement. *)
Definition to_int (z : Z) : Z :=
  let u := z mod 2 ^ 32 in
  if u <? 2 ^ 31 then u else u - 2 ^ 32.

End MachineInt.
Import MachineInt.

(** ** Characters and C strings *)

(** A [char] is a byte; in comparisons and arithmetic it is promoted to
    [int].  Every range test of the source lies inside 0..127, so the
    signedness of [char] does not influence any result. *)
Definition char_code (c : ascii) : Z := Z.of_N (N_of_ascii c).

Definition NUL : ascii := Ascii.zero.

(** The memory a [const char *] points to is modelled as a [string]: the
    characters stored from the pointer on.  The C string is the part before
    the first NUL; the end of the Rocq string stands for the terminator. *)
Fixpoint c_str (mem : string) : string :=
  match mem with
  | EmptyString => EmptyString
  | String c rest => if Ascii.eqb c NUL then EmptyString else String c (c_str rest)
  end.

(** [strlen]: the number of characters before the terminator. *)
Definition strlen (mem : string) : Z := Z.of_nat (String.length (c_str mem)).

(** [hex_string[i]]: the terminator is read at the end of the string. *)
Definition char_at (mem : string) (i : Z) : ascii :=
  if i <? 0 then NUL
  else match String.get (Z.to_nat i) mem with
       | Some c => c
       | None => NUL
       end.

(** ** The source functions *)

Definition hex_digit_to_int (hex : ascii) : Z :=
  let h := char_code hex in
  if (char_code "A" <=? h) && (h <=? char_code "F") then 10 + h - char_code "A"
  else if (char_code "a" <=? h) && (h <=? char_code "f") then 10 + h - char_code "a"
  else if (char_code "0" <=? h) && (h <=? char_code "9") then h - char_code "0"
  else -1.

(** What a call can come to: a returned value, an access outside the
    caller's buffer (undefined behaviour in C), or an exhausted iteration
    budget of the model. *)
Inductive result (A : Type) : Type :=
| Returns (a : A)
| Undefined
| OutOfFuel.
Arguments Returns {A} a.
Arguments Undefined {A}.
Arguments OutOfFuel {A}.

(** [buf[i] = v] on a buffer of [length buf] bytes. *)
Definition store (buf : list Z) (i : Z) (v : Z) : option (list Z) :=
  if (0 <=? i) && (i <? Z.of_nat (length buf))
  then Some (<[Z.to_nat i := v]> buf)
  else None.

(** The [for] loop of [hex_string_to_binary]; [i] is a [size_t], and
    [num_char] is converted to [size_t] for the comparison. *)
Fixpoint hex_loop (fuel : nat) (hex_string : string) (num_char : Z)
    (i : Z) (buf : list Z) : result (Z * list Z) :=
  match fuel with
  | O => OutOfFuel
  | S fuel' =>
      if i <? to_size_t num_char then
        let digit0 := hex_digit_to_int (char_at hex_string i) in
        let digit1 := hex_digit_to_int (char_at hex_string (i + 1)) in
        if (digit0 <? 0) || (digit1 <? 0) then Returns (0, buf)
        else
          match store buf (i / 2) (to_uint8 (Z.shiftl digit0 4 + digit1)) with
          | Some buf' => hex_loop fuel' hex_string num_char (to_size_t (i + 2)) buf'
          | None => Undefined
          end
      else Returns (to_size_t (Z.quot num_char 2), buf)
  end.

(** The loop is entered with a budget of one test per character pair plus
    the final test. *)
Definition hex_string_to_binary (hex_string : string) (buf : list Z)
    : result (Z * list Z) :=
  let num_char := to_int (strlen hex_string) in
  if Z.rem num_char 2 =? 1 then Returns (0, buf)
  else hex_loop (S (Z.to_nat (strlen hex_string))) hex_string num_char 0 buf.

(** ** The dataset builder *)

Inductive otError : Type := OT_ERROR_NONE | OT_ERROR_FAILED.

Record otLinkModeConfig : Type := {
  mRxOnWhenIdle : bool;
  mDeviceType : bool;
  mNetworkData : bool
}.

(** [otOperationalDatasetTlvs] is declared by the OpenThread headers: a byte
    array of [OT_OPERATIONAL_DATASET_MAX_LENGTH] bytes and a [uint8_t]
    length.  The capacity of [mTlvs] is the length of the list. *)
Record otOperationalDatasetTlvs : Type := {
  mTlvs : list Z;
  mLength : Z
}.

(** The OpenThread instance: what each call of the external API answers. *)
Record otInstance : Type := {
  otLinkSetPollPeriod : Z -> otError;
  otThreadSetLinkMode : otLinkModeConfig -> otError;
  otDatasetSetActiveTlvs : otOperationalDatasetTlvs -> otError;
  otIp6SetEnabled : bool -> otError;
  otThreadSetEnabled : bool -> otError
}.

Definition ot_failed (e : otError) : bool :=
  match e with OT_ERROR_NONE => false | OT_ERROR_FAILED => true end.

(** What [create_config_network] does, in order.  [CallHexStringToBinary]
    records the call of the decoder. *)
Inductive event : Type :=
| CallLinkSetPollPeriod (period : Z)
| CallThreadSetLinkMode (mode : otLinkModeConfig)
| CallHexStringToBinary
| CallDatasetSetActiveTlvs (dataset : otOperationalDatasetTlvs)
| CallIp6SetEnabled (enabled : bool)
| CallThreadSetEnabled (enabled : bool)
| LogE (msg : string).

(** How a run ends: it returns, calls [abort()], leaves the defined
    behaviour of C, or exhausts the budget of the decoder loop. *)
Inductive ending (A : Type) : Type :=
| Done (a : A)
| Aborted
| Undef
| NoFuel.
Arguments Done {A} a.
Arguments Aborted {A}.
Arguments Undef {A}.
Arguments NoFuel {A}.

Module Prog.

Definition prog (A : Type) : Type := list event * ending A.

Definition ret {A} (a : A) : prog A := ([], Done a).

Definition bind {A B} (m : prog A) (k : A -> prog B) : prog B :=
  match m with
  | (t, Done a) => let (t', e) := k a in (t ++ t', e)
  | (t, Aborted) => (t, Aborted)
  | (t, Undef) => (t, Undef)
  | (t, NoFuel) => (t, NoFuel)
  end.

Definition emit (e : event) : prog unit := ([e], Done tt).

Definition call {A} (e : event) (a : A) : prog A := ([e], Done a).

Definition abort {A} : prog A := ([], Aborted).

Definition of_result {A} (e : event) (r : result A) : prog A :=
  ([e], match r with
        | Returns a => Done a
        | Undefined => Undef
        | OutOfFuel => NoFuel
        end).

End Prog.
Import Prog.

Notation "x <- m ;; k" := (bind m (fun x => k))
  (at level 100, m at next level, right associativity).
Notation "m ;;; k" := (bind m (fun _ => k))
  (at level 100, right associativity).

Definition CONFIG_OPENTHREAD_NETWORK_POLLPERIOD_TIME : Z := 3000.

(** [linkMode] after the [memset] and the three assignments. *)
Definition linkMode : otLinkModeConfig :=
  {| mRxOnWhenIdle := false; mDeviceType := false; mNetworkData := false |}.

Section DatasetBuilder.

(** [OT_OPERATIONAL_DATASET_MAX_LENGTH] comes from the OpenThread headers,
    and the dataset string from the project configuration. *)
Variable OT_OPERATIONAL_DATASET_MAX_LENGTH : Z.
Variable CONFIG_OPENTHREAD_NETWORK_DATASET : string.

(** [datasetTlvs] is a local without initialiser: [uninit] gives the bytes
    its array holds on entry, [uninit_len] its length field. *)
Definition uninit_tlvs (uninit : nat -> Z) : list Z :=
  map uninit (seq 0 (Z.to_nat OT_OPERATIONAL_DATASET_MAX_LENGTH)).

Definition create_config_network (instance : otInstance)
    (uninit : nat -> Z) (uninit_len : Z) : prog unit :=
  let dataset_str_len := to_uint16 (strlen CONFIG_OPENTHREAD_NETWORK_DATASET) in
  let datasetTlvs := {| mTlvs := uninit_tlvs uninit; mLength := uninit_len |} in
  e <- call (CallLinkSetPollPeriod CONFIG_OPENTHREAD_NETWORK_POLLPERIOD_TIME)
         (otLinkSetPollPeriod instance CONFIG_OPENTHREAD_NETWORK_POLLPERIOD_TIME) ;;
  (if ot_failed e
   then emit (LogE "Failed to set OpenThread pollperiod.") ;;; abort
   else ret tt) ;;;
  e <- call (CallThreadSetLinkMode linkMode) (otThreadSetLinkMode instance linkMode) ;;
  (if ot_failed e
   then emit (LogE "Failed to set OpenThread linkmode.") ;;; abort
   else ret tt) ;;;
  (if dataset_str_len >? OT_OPERATIONAL_DATASET_MAX_LENGTH * 2
   then emit (LogE "dataset length error.") ;;; abort
   else ret tt) ;;;
  r <- of_result CallHexStringToBinary
         (hex_string_to_binary CONFIG_OPENTHREAD_NETWORK_DATASET (mTlvs datasetTlvs)) ;;
  let datasetTlvs := {| mTlvs := snd r; mLength := to_uint8 (fst r) |} in
  (if mLength datasetTlvs =? 0
   then emit (LogE "Failed convert configured dataset") ;;; abort
   else ret tt) ;;;
  e <- call (CallDatasetSetActiveTlvs datasetTlvs)
         (otDatasetSetActiveTlvs instance datasetTlvs) ;;
  (if ot_failed e
   then emit (LogE "Failed to set OpenThread otDatasetSetActiveTlvs.") ;;; abort
   else ret tt) ;;;
  e <- call (CallIp6SetEnabled true) (otIp6SetEnabled instance true) ;;
  (if ot_failed e
   then emit (LogE "Failed to enable OpenThread IP6 link") ;;; abort
   else ret tt) ;;;
  e <- call (CallThreadSetEnabled true) (otThreadSetEnabled instance true) ;;
  (if ot_failed e
   then emit (LogE "Failed to enable OpenThread") ;;; abort
   else ret tt).

End DatasetBuilder.

(** The two configuration failures the specification names.
    [DatasetTooLong]: the run logs "dataset length error." and aborts; the
    decoder has not been called.  [DatasetDecodeFailed]: the decoder has been
    called, and the run logs "Failed convert configured dataset" and aborts. *)
Definition DatasetTooLong : prog unit :=
  ([CallLinkSetPollPeriod CONFIG_OPENTHREAD_NETWORK_POLLPERIOD_TIME;
    CallThreadSetLinkMode linkMode;
    LogE "dataset length error."], Aborted).

Definition DatasetDecodeFailed : prog unit :=
  ([CallLinkSetPollPeriod CONFIG_OPENTHREAD_NETWORK_POLLPERIOD_TIME;
    CallThreadSetLinkMode linkMode;
    CallHexStringToBinary;
    LogE "Failed convert configured dataset"], Aborted).

(** The first two calls of [create_config_network] succeed on [instance]. *)
Definition link_setup_ok (instance : otInstance) : bool :=
  negb (ot_failed (otLinkSetPollPeriod instance CONFIG_OPENTHREAD_NETWORK_POLLPERIOD_TIME))
  && negb (ot_failed (otThreadSetLinkMode instance linkMode)).

(** The values the example is built with. *)
Definition shipped_dataset : string :=
  "0e080000000000010000000300000b35060004001fffe002084c14b4d26855fcd00708fdf7e918eb62e2a905107ca0e75a6ead4b960cfe073386943605030f4f70656e5468726561642d616631360102af1604102b9084b26c9a7d10a1a729bfc2e84ea00c0402a0f7f8".

Definition shipped_max_length : Z := 254.

(** An instance on which every call succeeds. *)
Definition ot_ok : otInstance :=
  {| otLinkSetPollPeriod := fun _ => OT_ERROR_NONE;
     otThreadSetLinkMode := fun _ => OT_ERROR_NONE;
     otDatasetSetActiveTlvs := fun _ => OT_ERROR_NONE;
     otIp6SetEnabled := fun _ => OT_ERROR_NONE;
     otThreadSetEnabled := fun _ => OT_ERROR_NONE |}.

(** ** The words of the specification *)

(** The characters [0-9A-Fa-f]. *)
Definition is_hex_digit (c : ascii) : bool :=
  match c with
  | "0" | "1" | "2" | "3" | "4" | "5" | "6" | "7" | "8" | "9"
  | "A" | "B" | "C" | "D" | "E" | "F"
  | "a" | "b" | "c" | "d" | "e" | "f" => true
  | _ => false
  end%char.

(** The 4-bit value of a hex digit: '0'-'9' are 0-9, 'A'-'F' and 'a'-'f'
    are 10-15. *)
Definition nibble (c : ascii) : Z :=
  match c with
  | "0" => 0 | "1" => 1 | "2" => 2 | "3" => 3 | "4" => 4
  | "5" => 5 | "6" => 6 | "7" => 7 | "8" => 8 | "9" => 9
  | "A" | "a" => 10 | "B" | "b" => 11 | "C" | "c" => 12
  | "D" | "d" => 13 | "E" | "e" => 14 | "F" | "f" => 15
  | _ => 0
  end%char.

(** The decoded form of a hex string: one byte per two characters. *)
Fixpoint spec_decode (s : string) : list Z :=
  match s with
  | String hi (String lo rest) => (16 * nibble hi + nibble lo) :: spec_decode rest
  | _ => []
  end.

(** Upper-casing of a character and of a string. *)
Definition toupper (c : ascii) : ascii :=
  let h := char_code c in
  if (char_code "a" <=? h) && (h <=? char_code "z")
  then ascii_of_N (Z.to_N (h - 32))
  else c.

Fixpoint uppercase (s : string) : string :=
  match s with
  | EmptyString => EmptyString
  | String c rest => String (toupper c) (uppercase rest)
  end.

(** Encoding of bytes as upper-case hex, two characters per byte. *)
Definition hex_char_upper (n : Z) : ascii :=
  match n with
  | 0 => "0" | 1 => "1" | 2 => "2" | 3 => "3" | 4 => "4"
  | 5 => "5" | 6 => "6" | 7 => "7" | 8 => "8" | 9 => "9"
  | 10 => "A" | 11 => "B" | 12 => "C" | 13 => "D" | 14 => "E"
  | _ => "F"
  end%char.

Fixpoint encode_upper (bytes : list Z) : string :=
  match bytes with
  | [] => EmptyString
  | b :: rest =>
      String (hex_char_upper (b / 16)) (String (hex_char_upper (b mod 16)) (encode_upper rest))
  end.

(** The position of the first character of [s] that is no hex digit. *)
Fixpoint first_invalid (s : string) : option nat :=
  match s with
  | EmptyString => None
  | String c rest =>
      if is_hex_digit c then option_map S (first_invalid rest) else Some O
  end.

(** Every character of the C string at [mem] is a hex digit. *)
Definition all_hex (mem : string) : bool :=
  match first_invalid (c_str mem) with
  | None => true
  | Some _ => false
  end.

(** Both characters of pair [j] are accepted by [hex_digit_to_int]. *)
Definition pair_valid (mem : string) (j : Z) : bool :=
  (0 <=? hex_digit_to_int (char_at mem (2 * j)))
  && (0 <=? hex_digit_to_int (char_at mem (2 * j + 1))).

(** The byte the loop stores for pair [j]. *)
Definition pair_byte (mem : string) (j : Z) : Z :=
  to_uint8 (Z.shiftl (hex_digit_to_int (char_at mem (2 * j))) 4
            + hex_digit_to_int (char_at mem (2 * j + 1))).

(** What the loop, entered at pair [k] with buffer [buf], has done when it
    ends: pairs [k..m) were stored, nothing else was touched, and it stopped
    at [m] either at the end of the string or on a rejected pair.  A store
    outside the buffer happens only at a pair reached through valid ones. *)
Definition loop_post (mem : string) (k : Z) (buf : list Z)
    (r : result (Z * list Z)) : Prop :=
  let h := strlen mem / 2 in
  match r with
  | Returns (count, buf') =>
      length buf' = length buf /\
      exists m, k <= m <= h /\
        (forall j, k <= j < m ->
           pair_valid mem j = true /\ buf' !! Z.to_nat j = Some (pair_byte mem j)) /\
        (forall j : nat, Z.of_nat j < k \/ m <= Z.of_nat j -> buf' !! j = buf !! j) /\
        (k < m -> m <= Z.of_nat (length buf)) /\
        ((m = h /\ count = h) \/ (m < h /\ pair_valid mem m = false /\ count = 0))
  | Undefined =>
      exists m, k <= m < h /\
        (forall j, k <= j <= m -> pair_valid mem j = true) /\
        Z.of_nat (length buf) <= m
  | OutOfFuel => False
  end.

(** A string of [n] copies of [c]. *)
Fixpoint replicate_char (n : nat) (c : ascii) : string :=
  match n with
  | O => EmptyString
  | S n' => String c (replicate_char n' c)
  end.

(** The dataset a run hands to the network stack when the configured string
    is decoded in full: the decoded bytes, then what the array held before,
    and the number of decoded bytes. *)
Definition decoded_tlvs (max_len : Z) (dataset : string) (uninit : nat -> Z)
    : otOperationalDatasetTlvs :=
  {| mTlvs := spec_decode (c_str dataset)
              ++ drop (Z.to_nat (strlen dataset / 2)) (uninit_tlvs max_len uninit);
     mLength := strlen dataset / 2 |}.

(** The events of a run of [create_config_network] that returns. *)
Definition completed_trace (d : otOperationalDatasetTlvs) : list event :=
  [CallLinkSetPollPeriod CONFIG_OPENTHREAD_NETWORK_POLLPERIOD_TIME;
   CallThreadSetLinkMode linkMode;
   CallHexStringToBinary;
   CallDatasetSetActiveTlvs d;
   CallIp6SetEnabled true;
   CallThreadSetEnabled true].

(** The last three calls of [create_config_network] succeed on [instance]
    for the dataset [d]. *)
Definition stack_accepts (instance : otInstance) (d : otOperationalDatasetTlvs) : bool :=
  negb (ot_failed (otDatasetSetActiveTlvs instance d))
  && negb (ot_failed (otIp6SetEnabled instance true))
  && negb (ot_failed (otThreadSetEnabled instance true)).

(** ** The task around the dataset builder *)

Inductive esp_err_t : Type := ESP_OK | ESP_FAIL.

Definition esp_failed (e : esp_err_t) : bool :=
  match e with ESP_OK => false | ESP_FAIL => true end.

(** The enumerators of the SDK that [esp_ot_power_save_config.h] names. *)
Inductive sdk_constant : Type :=
| RADIO_MODE_NATIVE
| HOST_CONNECTION_MODE_CLI_UART
| UART_DATA_8_BITS
| UART_PARITY_DISABLE
| UART_STOP_BITS_1
| UART_HW_FLOWCTRL_DISABLE
| UART_SCLK_DEFAULT
| UART_PIN_NO_CHANGE.

Record uart_config_t : Type := {
  baud_rate : Z;
  data_bits : sdk_constant;
  parity : sdk_constant;
  stop_bits : sdk_constant;
  flow_ctrl : sdk_constant;
  rx_flow_ctrl_thresh : Z;
  source_clk : sdk_constant
}.

Record esp_openthread_uart_config_t : Type := {
  port : Z;
  uart_config : uart_config_t;
  rx_pin : sdk_constant;
  tx_pin : sdk_constant
}.

Record esp_openthread_host_connection_config_t : Type := {
  host_connection_mode : sdk_constant;
  host_uart_config : esp_openthread_uart_config_t
}.

Record esp_openthread_radio_config_t : Type := { radio_mode : sdk_constant }.

Record esp_openthread_port_config_t : Type := {
  storage_partition_name : string;
  netif_queue_size : Z;
  task_queue_size : Z
}.

Record esp_openthread_platform_config_t : Type := {
  radio_config : esp_openthread_radio_config_t;
  host_config : esp_openthread_host_connection_config_t;
  port_config : esp_openthread_port_config_t
}.

Definition ESP_OPENTHREAD_DEFAULT_RADIO_CONFIG : esp_openthread_radio_config_t :=
  {| radio_mode := RADIO_MODE_NATIVE |}.

Definition ESP_OPENTHREAD_DEFAULT_HOST_CONFIG : esp_openthread_host_connection_config_t :=
  {| host_connection_mode := HOST_CONNECTION_MODE_CLI_UART;
     host_uart_config :=
       {| port := 0;
          uart_config :=
            {| baud_rate := 115200;
               data_bits := UART_DATA_8_BITS;
               parity := UART_PARITY_DISABLE;
               stop_bits := UART_STOP_BITS_1;
               flow_ctrl := UART_HW_FLOWCTRL_DISABLE;
               rx_flow_ctrl_thresh := 0;
               source_clk := UART_SCLK_DEFAULT |};
          rx_pin := UART_PIN_NO_CHANGE;
          tx_pin := UART_PIN_NO_CHANGE |} |}.

Definition ESP_OPENTHREAD_DEFAULT_PORT_CONFIG : esp_openthread_port_config_t :=
  {| storage_partition_name := "ot_storage";
     netif_queue_size := 10;
     task_queue_size := 10 |}.

Record esp_pm_config_t : Type := {
  max_freq_mhz : Z;
  min_freq_mhz : Z;
  light_sleep_enable : bool
}.

Record esp_vfs_eventfd_config_t : Type := { max_fds : Z }.

(** The build configuration: the preprocessor symbols the file tests or
    expands.  [NDEBUG] selects the expansion of [ESP_ERROR_CHECK] and
    [assert]: with it they let every value pass, without it they abort. *)
Record sdkconfig : Type := {
  NDEBUG : bool;
  CONFIG_PM_ENABLE : bool;
  CONFIG_FREERTOS_USE_TICKLESS_IDLE : bool;
  CONFIG_ESP_DEFAULT_CPU_FREQ_MHZ : Z;
  CONFIG_OPENTHREAD_LOG_LEVEL_DYNAMIC : bool;
  CONFIG_LOG_DEFAULT_LEVEL : Z;
  dataset_max_length : Z;
  network_dataset : string
}.

(** What the SDK answers.  [esp_netif_new] answers whether the pointer is
    non-NULL; [esp_openthread_launch_mainloop] answers [None] when it never
    returns.  [stack_bytes] and [stack_len] are what the stack holds where
    [create_config_network] places [datasetTlvs]. *)
Record platform : Type := {
  nvs_flash_init : esp_err_t;
  esp_event_loop_create_default : esp_err_t;
  esp_netif_init : esp_err_t;
  esp_vfs_eventfd_register : esp_vfs_eventfd_config_t -> esp_err_t;
  esp_pm_configure : esp_pm_config_t -> esp_err_t;
  esp_openthread_init : esp_openthread_platform_config_t -> esp_err_t;
  esp_netif_new : bool;
  esp_netif_attach : esp_err_t;
  esp_openthread_get_instance : otInstance;
  esp_openthread_launch_mainloop : option esp_err_t;
  stack_bytes : nat -> Z;
  stack_len : Z
}.

Inductive sys_event : Type :=
| OpenThread (e : event)
| CallNvsFlashInit
| CallEspEventLoopCreateDefault
| CallEspNetifInit
| CallEspVfsEventfdRegister (config : esp_vfs_eventfd_config_t)
| CallEspPmConfigure (config : esp_pm_config_t)
| CallXTaskCreate (name : string) (stack_depth priority : Z)
| CallEspOpenthreadInit (config : esp_openthread_platform_config_t)
| CallOtLoggingSetLevel (level : Z)
| CallEspNetifNew
| CallEspOpenthreadNetifGlueInit (config : esp_openthread_platform_config_t)
| CallEspNetifAttach
| CallEspNetifSetDefaultNetif
| CallEspOpenthreadGetInstance
| CallEspOpenthreadLaunchMainloop
| CallEspNetifDestroy
| CallEspOpenthreadNetifGlueDeinit
| CallEspVfsEventfdUnregister
| CallVTaskDelete.

(** Why a run of the task stops before its end. *)
Inductive stop : Type := ByAbort | ByUndef | ByNoFuel | NoReturn.

Module Sys.

Definition run (A : Type) : Type := list sys_event * (A + stop).

Definition ret {A} (a : A) : run A := ([], inl a).

Definition bind {A B} (m : run A) (k : A -> run B) : run B :=
  match m with
  | (t, inl a) => let (t', e) := k a in (t ++ t', e)
  | (t, inr s) => (t, inr s)
  end.

Definition call {A} (e : sys_event) (a : A) : run A := ([e], inl a).

Definition halt {A} (s : stop) : run A := ([], inr s).

(** A run of [create_config_network] inside the task. *)
Definition lift {A} (p : prog A) : run A :=
  (map OpenThread (fst p),
   match snd p with
   | Done a => inl a
   | Aborted => inr ByAbort
   | Undef => inr ByUndef
   | NoFuel => inr ByNoFuel
   end).

End Sys.

Notation "x <~ m ;; k" := (Sys.bind m (fun x => k))
  (at level 100, m at next level, right associativity).
Notation "m ;;> k" := (Sys.bind m (fun _ => k))
  (at level 100, right associativity).

Definition ESP_ERROR_CHECK (cfg : sdkconfig) (x : esp_err_t) : Sys.run unit :=
  if NDEBUG cfg then Sys.ret tt
  else if esp_failed x then Sys.halt ByAbort else Sys.ret tt.

Definition assert (cfg : sdkconfig) (c : bool) : Sys.run unit :=
  if NDEBUG cfg then Sys.ret tt
  else if c then Sys.ret tt else Sys.halt ByAbort.

Definition init_openthread_netif (cfg : sdkconfig) (sdk : platform)
    (config : esp_openthread_platform_config_t) : Sys.run bool :=
  netif <~ Sys.call CallEspNetifNew (esp_netif_new sdk) ;;
  assert cfg netif ;;>
  Sys.call (CallEspOpenthreadNetifGlueInit config) tt ;;>
  rc <~ Sys.call CallEspNetifAttach (esp_netif_attach sdk) ;;
  ESP_ERROR_CHECK cfg rc ;;>
  Sys.ret netif.

Definition ot_task_worker (cfg : sdkconfig) (sdk : platform) : Sys.run unit :=
  let config :=
    {| radio_config := ESP_OPENTHREAD_DEFAULT_RADIO_CONFIG;
       host_config := ESP_OPENTHREAD_DEFAULT_HOST_CONFIG;
       port_config := ESP_OPENTHREAD_DEFAULT_PORT_CONFIG |} in
  rc <~ Sys.call (CallEspOpenthreadInit config) (esp_openthread_init sdk config) ;;
  ESP_ERROR_CHECK cfg rc ;;>
  (if CONFIG_OPENTHREAD_LOG_LEVEL_DYNAMIC cfg
   then Sys.call (CallOtLoggingSetLevel (CONFIG_LOG_DEFAULT_LEVEL cfg)) tt
   else Sys.ret tt) ;;>
  openthread_netif <~ init_openthread_netif cfg sdk config ;;
  Sys.call CallEspNetifSetDefaultNetif tt ;;>
  instance <~ Sys.call CallEspOpenthreadGetInstance (esp_openthread_get_instance sdk) ;;
  Sys.lift (create_config_network (dataset_max_length cfg) (network_dataset cfg)
              instance (stack_bytes sdk) (stack_len sdk)) ;;>
  (match esp_openthread_launch_mainloop sdk with
   | Some _ => Sys.call CallEspOpenthreadLaunchMainloop tt
   | None => Sys.call CallEspOpenthreadLaunchMainloop tt ;;> Sys.halt NoReturn
   end) ;;>
  Sys.call CallEspNetifDestroy tt ;;>
  Sys.call CallEspOpenthreadNetifGlueDeinit tt ;;>
  Sys.call CallEspVfsEventfdUnregister tt ;;>
  Sys.call CallVTaskDelete tt.

Definition ot_power_save_init (cfg : sdkconfig) (sdk : platform) : Sys.run esp_err_t :=
  if CONFIG_PM_ENABLE cfg then
    let cur_cpu_freq_mhz := CONFIG_ESP_DEFAULT_CPU_FREQ_MHZ cfg in
    let pm_config :=
      {| max_freq_mhz := cur_cpu_freq_mhz;
         min_freq_mhz := cur_cpu_freq_mhz;
         light_sleep_enable := CONFIG_FREERTOS_USE_TICKLESS_IDLE cfg |} in
    Sys.call (CallEspPmConfigure pm_config) (esp_pm_configure sdk pm_config)
  else Sys.ret ESP_OK.

(** [app_main] up to the creation of the task that runs [ot_task_worker]. *)
Definition app_main (cfg : sdkconfig) (sdk : platform) : Sys.run unit :=
  let eventfd_config := {| max_fds := 3 |} in
  rc <~ Sys.call CallNvsFlashInit (nvs_flash_init sdk) ;;
  ESP_ERROR_CHECK cfg rc ;;>
  rc <~ Sys.call CallEspEventLoopCreateDefault (esp_event_loop_create_default sdk) ;;
  ESP_ERROR_CHECK cfg rc ;;>
  rc <~ Sys.call CallEspNetifInit (esp_netif_init sdk) ;;
  ESP_ERROR_CHECK cfg rc ;;>
  rc <~ Sys.call (CallEspVfsEventfdRegister eventfd_config)
          (esp_vfs_eventfd_register sdk eventfd_config) ;;
  ESP_ERROR_CHECK cfg rc ;;>
  rc <~ ot_power_save_init cfg sdk ;;
  ESP_ERROR_CHECK cfg rc ;;>
  Sys.call (CallXTaskCreate "ot_power_save_main" 4096 5) tt.

(** The power configuration [ot_power_save_init] submits. *)
Definition pinned_pm_config (cfg : sdkconfig) : esp_pm_config_t :=
  {| max_freq_mhz := CONFIG_ESP_DEFAULT_CPU_FREQ_MHZ cfg;
     min_freq_mhz := CONFIG_ESP_DEFAULT_CPU_FREQ_MHZ cfg;
     light_sleep_enable := CONFIG_FREERTOS_USE_TICKLESS_IDLE cfg |}.

(** Every initialisation step of [app_main] answers [ESP_OK]. *)
Definition startup_ok (cfg : sdkconfig) (sdk : platform) : Prop :=
  nvs_flash_init sdk = ESP_OK /\
  esp_event_loop_create_default sdk = ESP_OK /\
  esp_netif_init sdk = ESP_OK /\
  esp_vfs_eventfd_register sdk {| max_fds := 3 |} = ESP_OK /\
  (CONFIG_PM_ENABLE cfg = true -> esp_pm_configure sdk (pinned_pm_config cfg) = ESP_OK).

(** An SDK on which every call succeeds and the main loop returns, and a
    build with the checks active. *)
Definition sdk_ok : platform :=
  {| nvs_flash_init := ESP_OK;
     esp_event_loop_create_default := ESP_OK;
     esp_netif_init := ESP_OK;
     esp_vfs_eventfd_register := fun _ => ESP_OK;
     esp_pm_configure := fun _ => ESP_OK;
     esp_openthread_init := fun _ => ESP_OK;
     esp_netif_new := true;
     esp_netif_attach := ESP_OK;
     esp_openthread_get_instance := ot_ok;
     esp_openthread_launch_mainloop := Some ESP_OK;
     stack_bytes := fun _ => 0;
     stack_len := 0 |}.

Definition cfg_example : sdkconfig :=
  {| NDEBUG := false;
     CONFIG_PM_ENABLE := true;
     CONFIG_FREERTOS_USE_TICKLESS_IDLE := true;
     CONFIG_ESP_DEFAULT_CPU_FREQ_MHZ := 96;
     CONFIG_OPENTHREAD_LOG_LEVEL_DYNAMIC := true;
     CONFIG_LOG_DEFAULT_LEVEL := 3;
     dataset_max_length := shipped_max_length;
     network_dataset := shipped_dataset |}.

(** * Properties *)

(** ** Machine integers *)

Lemma to_size_t_small z : 0 <= z < 2 ^ 32 -> to_size_t z = z.
Proof. intros ?. unfold to_size_t. apply Z.mod_small. lia. Qed.

Lemma to_uint8_small z : 0 <= z < 2 ^ 8 -> to_uint8 z = z.
Proof. intros ?. unfold to_uint8. apply Z.mod_small. lia. Qed.

Lemma to_uint16_small z : 0 <= z < 2 ^ 16 -> to_uint16 z = z.
Proof. intros ?. unfold to_uint16. apply Z.mod_small. lia. Qed.

Lemma to_int_small z : 0 <= z <= INT_MAX -> to_int z = z.
Proof.
  unfold to_int, INT_MAX. intros ?.
  rewrite Z.mod_small by lia.
  destruct (Z.ltb_spec z (2 ^ 31)); lia.
Qed.


(** ** Characters *)

Ltac each_char c :=
  destruct c as [[] [] [] [] [] [] [] []]; vm_compute; try reflexivity; try discriminate;
  try (split; discriminate); auto.

Lemma hex_digit_to_int_hex c :
  is_hex_digit c = true -> hex_digit_to_int c = nibble c.
Proof. each_char c. Qed.

Lemma hex_digit_to_int_not_hex c :
  is_hex_digit c = false -> hex_digit_to_int c = -1.
Proof. each_char c. Qed.

Lemma nibble_range c : 0 <= nibble c <= 15.
Proof. each_char c. Qed.

Example ex_ab : hex_string_to_binary "aB" [0; 7] = Returns (1, [171; 7]).
Proof. reflexivity. Qed.

(** ** C strings *)

Lemma strlen_nonneg mem : 0 <= strlen mem.
Proof. unfold strlen. lia. Qed.

Lemma loop_test_negb d0 d1 :
  (d0 <? 0) || (d1 <? 0) = negb ((0 <=? d0) && (0 <=? d1)).
Proof.
  destruct (Z.ltb_spec d0 0), (Z.ltb_spec d1 0), (Z.leb_spec 0 d0), (Z.leb_spec 0 d1);
    simpl; try reflexivity; lia.
Qed.

(** ** The decoder loop *)

Lemma hex_loop_spec mem :
  strlen mem <= INT_MAX -> strlen mem mod 2 = 0 ->
  forall fuel k buf,
    0 <= k <= strlen mem / 2 ->
    (Z.to_nat (strlen mem / 2 - k) < fuel)%nat ->
    loop_post mem k buf (hex_loop fuel mem (strlen mem) (2 * k) buf).
Proof.
  intros Hmax Heven.
  pose proof (strlen_nonneg mem) as Hn0.
  assert (Hn : strlen mem = 2 * (strlen mem / 2)).
  { rewrite (Z.div_mod (strlen mem) 2) at 1 by lia. lia. }
  assert (Hsz : to_size_t (strlen mem) = strlen mem).
  { apply to_size_t_small. unfold INT_MAX in Hmax. lia. }
  induction fuel as [|fuel IH]; intros k buf Hk Hfuel; [lia|].
  cbn [hex_loop]. rewrite Hsz.
  destruct (Z.ltb_spec (2 * k) (strlen mem)) as [Hlt|Hge].
  - rewrite loop_test_negb. fold (pair_valid mem k).
    destruct (pair_valid mem k) eqn:Hv; cbn [negb].
    + replace (2 * k / 2) with k by (rewrite Z.mul_comm, Z.div_mul; lia).
      fold (pair_byte mem k).
      unfold store.
      destruct (Z.leb_spec 0 k) as [_|?]; [|lia]. cbn [andb].
      destruct (Z.ltb_spec k (Z.of_nat (length buf))) as [Hcap|Hcap].
      * replace (to_size_t (2 * k + 2)) with (2 * (k + 1))
          by (rewrite to_size_t_small; unfold INT_MAX in Hmax; lia).
        specialize (IH (k + 1) (<[Z.to_nat k := pair_byte mem k]> buf)).
        assert (Hk' : 0 <= k + 1 <= strlen mem / 2) by lia.
        specialize (IH Hk' ltac:(lia)).
        destruct (hex_loop fuel mem (strlen mem) (2 * (k + 1))
                    (<[Z.to_nat k := pair_byte mem k]> buf)) as [[count buf']| |];
          cbn [loop_post] in IH |- *; [| |exact IH].
        -- destruct IH as (Hlen & m & Hm & Hdone & Hframe & Hroom & Hstop).
           rewrite length_insert in Hlen, Hroom.
           split; [exact Hlen|].
           exists m. split; [lia|]. split; [|split; [|split]].
           ++ intros j Hj. destruct (Z.eq_dec j k) as [->|Hne].
              ** split; [exact Hv|].
                 rewrite Hframe by (left; lia).
                 apply list_lookup_insert_eq. lia.
              ** apply Hdone. lia.
           ++ intros j Hj. rewrite Hframe by lia.
              apply list_lookup_insert_ne. lia.
           ++ intros _. destruct (Z.eq_dec m (k + 1)); [lia|]. apply Hroom. lia.
           ++ exact Hstop.
        -- destruct IH as (m & Hm & Hvalid & Hcap').
           rewrite length_insert in Hcap'.
           exists m. split; [lia|]. split; [|exact Hcap'].
           intros j Hj. destruct (Z.eq_dec j k) as [->|Hne]; [exact Hv|].
           apply Hvalid. lia.
      * cbn [loop_post]. exists k. split; [lia|]. split; [|exact Hcap].
        intros j Hj. replace j with k by lia. exact Hv.
    + cbn [loop_post]. split; [reflexivity|].
      exists k. split; [lia|]. split; [intros; lia|]. split; [reflexivity|].
      split; [lia|]. right. split; [lia|]. split; [exact Hv|reflexivity].
  - cbn [loop_post]. split; [reflexivity|].
    assert (k = strlen mem / 2) by lia. subst k.
    exists (strlen mem / 2). split; [lia|]. split; [intros; lia|].
    split; [reflexivity|]. split; [lia|]. left. split; [reflexivity|].
    rewrite Hn at 1. rewrite Z.mul_comm, Z.quot_mul by lia.
    apply to_size_t_small. unfold INT_MAX in Hmax. lia.
Qed.

Lemma get_c_str mem : forall i,
  (i < String.length (c_str mem))%nat ->
  String.get i (c_str mem) = String.get i mem.
Proof.
  induction mem as [|c rest IH]; intros i Hi; [reflexivity|].
  cbn [c_str] in *. destruct (Ascii.eqb c NUL); cbn in Hi; [lia|].
  destruct i as [|i]; [reflexivity|]. cbn. apply IH. lia.
Qed.

Lemma char_at_c_str mem i :
  0 <= i < strlen mem -> char_at (c_str mem) i = char_at mem i.
Proof.
  unfold strlen, char_at. intros Hi.
  rewrite get_c_str by lia. reflexivity.
Qed.

Lemma char_at_cons c rest i :
  0 <= i -> char_at (String c rest) (i + 1) = char_at rest i.
Proof.
  intros Hi. unfold char_at.
  destruct (Z.ltb_spec (i + 1) 0); [lia|]. destruct (Z.ltb_spec i 0); [lia|].
  replace (Z.to_nat (i + 1)) with (S (Z.to_nat i)) by lia. reflexivity.
Qed.

(** [first_invalid] finds the least position holding a non-digit. *)
Lemma first_invalid_none s :
  first_invalid s = None ->
  forall i, 0 <= i < Z.of_nat (String.length s) -> is_hex_digit (char_at s i) = true.
Proof.
  induction s as [|c rest IH]; cbn [first_invalid String.length]; intros Hf i Hi; [lia|].
  destruct (is_hex_digit c) eqn:Hc; [|discriminate].
  destruct (first_invalid rest); [discriminate|].
  destruct (Z.eq_dec i 0) as [->|Hne]; [exact Hc|].
  replace i with (i - 1 + 1) by lia. rewrite char_at_cons by lia.
  apply IH; [reflexivity|lia].
Qed.

Lemma first_invalid_some s : forall p,
  first_invalid s = Some p ->
  (p < String.length s)%nat /\
  is_hex_digit (char_at s (Z.of_nat p)) = false /\
  forall i, 0 <= i < Z.of_nat p -> is_hex_digit (char_at s i) = true.
Proof.
  induction s as [|c rest IH]; cbn [first_invalid String.length]; intros p Hf;
    [discriminate|].
  destruct (is_hex_digit c) eqn:Hc.
  - destruct (first_invalid rest) as [q|]; [|discriminate].
    injection Hf as <-. destruct (IH q eq_refl) as (Hq & Hbad & Hgood).
    split; [lia|]. split.
    + replace (Z.of_nat (S q)) with (Z.of_nat q + 1) by lia.
      rewrite char_at_cons by lia. exact Hbad.
    + intros i Hi. destruct (Z.eq_dec i 0) as [->|Hne]; [exact Hc|].
      replace i with (i - 1 + 1) by lia. rewrite char_at_cons by lia.
      apply Hgood. lia.
  - injection Hf as <-. split; [lia|]. split; [exact Hc|]. intros; lia.
Qed.

Lemma all_hex_true mem :
  all_hex mem = true ->
  forall i, 0 <= i < strlen mem -> is_hex_digit (char_at mem i) = true.
Proof.
  unfold all_hex. intros Ha i Hi.
  destruct (first_invalid (c_str mem)) eqn:Hf; [discriminate|].
  rewrite <- char_at_c_str by exact Hi.
  apply (first_invalid_none _ Hf). exact Hi.
Qed.

Lemma all_hex_false mem :
  all_hex mem = false ->
  exists i, 0 <= i < strlen mem /\ is_hex_digit (char_at mem i) = false.
Proof.
  unfold all_hex. intros Ha.
  destruct (first_invalid (c_str mem)) as [p|] eqn:Hf; [|discriminate].
  destruct (first_invalid_some _ _ Hf) as (Hp & Hbad & _).
  exists (Z.of_nat p). unfold strlen. split; [lia|].
  rewrite <- char_at_c_str by (unfold strlen; lia). exact Hbad.
Qed.

(** ** Pairs of characters *)

Lemma pair_valid_true mem j :
  is_hex_digit (char_at mem (2 * j)) = true ->
  is_hex_digit (char_at mem (2 * j + 1)) = true ->
  pair_valid mem j = true.
Proof.
  intros H0 H1. unfold pair_valid.
  rewrite (hex_digit_to_int_hex _ H0), (hex_digit_to_int_hex _ H1).
  pose proof (nibble_range (char_at mem (2 * j))).
  pose proof (nibble_range (char_at mem (2 * j + 1))).
  destruct (Z.leb_spec 0 (nibble (char_at mem (2 * j)))); [|lia].
  destruct (Z.leb_spec 0 (nibble (char_at mem (2 * j + 1)))); [|lia].
  reflexivity.
Qed.

Lemma pair_valid_hex mem j :
  pair_valid mem j = true ->
  is_hex_digit (char_at mem (2 * j)) = true /\
  is_hex_digit (char_at mem (2 * j + 1)) = true.
Proof.
  unfold pair_valid. intros Hv. apply andb_prop in Hv as [H0 H1].
  split.
  - destruct (is_hex_digit (char_at mem (2 * j))) eqn:E; [reflexivity|].
    rewrite (hex_digit_to_int_not_hex _ E) in H0. discriminate.
  - destruct (is_hex_digit (char_at mem (2 * j + 1))) eqn:E; [reflexivity|].
    rewrite (hex_digit_to_int_not_hex _ E) in H1. discriminate.
Qed.

Lemma pair_valid_false mem i :
  0 <= i -> is_hex_digit (char_at mem i) = false -> pair_valid mem (i / 2) = false.
Proof.
  intros Hi Hbad.
  destruct (pair_valid mem (i / 2)) eqn:Hv; [|reflexivity].
  apply pair_valid_hex in Hv as [H0 H1].
  pose proof (Z.div_mod i 2) as Hdm. pose proof (Z.mod_pos_bound i 2) as Hb.
  assert (Hcase : i = 2 * (i / 2) \/ i = 2 * (i / 2) + 1) by lia.
  destruct Hcase as [E|E]; rewrite <- E in *; congruence.
Qed.

(** The stored byte is [16 * hi + lo]. *)
Lemma pair_byte_nibbles mem j :
  pair_valid mem j = true ->
  pair_byte mem j = 16 * nibble (char_at mem (2 * j)) + nibble (char_at mem (2 * j + 1)).
Proof.
  intros Hv. apply pair_valid_hex in Hv as [H0 H1]. unfold pair_byte.
  rewrite (hex_digit_to_int_hex _ H0), (hex_digit_to_int_hex _ H1).
  pose proof (nibble_range (char_at mem (2 * j))).
  pose proof (nibble_range (char_at mem (2 * j + 1))).
  rewrite Z.shiftl_mul_pow2 by lia.
  rewrite to_uint8_small; lia.
Qed.

(** ** The decoder *)

Lemma hex_string_to_binary_odd_length mem buf :
  strlen mem <= INT_MAX -> strlen mem mod 2 = 1 ->
  hex_string_to_binary mem buf = Returns (0, buf).
Proof.
  intros Hmax Hodd. pose proof (strlen_nonneg mem).
  unfold hex_string_to_binary.
  rewrite to_int_small by lia.
  rewrite Z.rem_mod_nonneg by lia. rewrite Hodd. reflexivity.
Qed.

Lemma hex_string_to_binary_even_length mem buf :
  strlen mem <= INT_MAX -> strlen mem mod 2 = 0 ->
  loop_post mem 0 buf (hex_string_to_binary mem buf).
Proof.
  intros Hmax Heven. pose proof (strlen_nonneg mem).
  unfold hex_string_to_binary.
  rewrite to_int_small by lia.
  rewrite Z.rem_mod_nonneg by lia. rewrite Heven. cbn [Z.eqb].
  change 0 with (2 * 0) at 1.
  apply hex_loop_spec; try assumption.
  - split; [lia|]. apply Z.div_pos; lia.
  - assert (strlen mem / 2 <= strlen mem) by (apply Z.div_le_upper_bound; lia).
    lia.
Qed.

(** ** The decoded form *)

(** Induction over a string two characters at a time. *)
Lemma string_pair_ind (P : string -> Prop) :
  P EmptyString ->
  (forall c, P (String c EmptyString)) ->
  (forall hi lo rest, P rest -> P (String hi (String lo rest))) ->
  forall s, P s.
Proof.
  intros H0 H1 H2 s.
  assert (Hboth : P s /\ forall c, P (String c s)).
  { induction s as [|c rest [IHa IHb]]; split; auto. }
  exact (proj1 Hboth).
Qed.

Lemma spec_decode_length s :
  length (spec_decode s) = Nat.div2 (String.length s).
Proof.
  induction s as [|c|hi lo rest IH] using string_pair_ind; [reflexivity..|].
  cbn [spec_decode String.length length Nat.div2]. rewrite IH. reflexivity.
Qed.

Lemma spec_decode_lookup s : forall j : nat,
  (2 * j + 1 < String.length s)%nat ->
  spec_decode s !! j =
    Some (16 * nibble (char_at s (2 * Z.of_nat j))
          + nibble (char_at s (2 * Z.of_nat j + 1))).
Proof.
  induction s as [|c|hi lo rest IH] using string_pair_ind; intros j Hj;
    cbn [String.length] in Hj; [lia..|].
  destruct j as [|j]; [reflexivity|].
  cbn [spec_decode]. change ((?x :: ?l) !! S j) with (l !! j).
  rewrite IH by lia.
  replace (2 * Z.of_nat (S j)) with (2 * Z.of_nat j + 1 + 1) by lia.
  replace (2 * Z.of_nat (S j) + 1) with (2 * Z.of_nat j + 1 + 1 + 1) by lia.
  rewrite !char_at_cons by lia. reflexivity.
Qed.

Lemma half_strlen mem :
  Z.to_nat (strlen mem / 2) = Nat.div2 (String.length (c_str mem)).
Proof.
  unfold strlen. rewrite Nat.div2_div.
  change 2 with (Z.of_nat 2). rewrite <- Nat2Z.inj_div. apply Nat2Z.id.
Qed.

(** Once every pair has been stored, the front of the buffer is the decoded
    form of the string. *)
Lemma decoded_prefix mem (buf' : list Z) :
  strlen mem mod 2 = 0 ->
  (forall j, 0 <= j < strlen mem / 2 ->
     pair_valid mem j = true /\ buf' !! Z.to_nat j = Some (pair_byte mem j)) ->
  take (Z.to_nat (strlen mem / 2)) buf' = spec_decode (c_str mem).
Proof.
  intros Heven Hpairs. pose proof (strlen_nonneg mem) as Hn0.
  assert (Hn : strlen mem = 2 * (strlen mem / 2)).
  { rewrite (Z.div_mod (strlen mem) 2) at 1 by lia. lia. }
  apply list_eq. intros i.
  destruct (Nat.lt_ge_cases i (Z.to_nat (strlen mem / 2))) as [Hi|Hi].
  - rewrite lookup_take_lt by exact Hi.
    destruct (Hpairs (Z.of_nat i) ltac:(lia)) as [Hv Hb].
    rewrite Nat2Z.id in Hb. rewrite Hb, (pair_byte_nibbles _ _ Hv).
    rewrite spec_decode_lookup by (unfold strlen in *; lia).
    rewrite !char_at_c_str by lia. reflexivity.
  - rewrite lookup_take_ge by exact Hi. symmetry.
    apply lookup_ge_None_2. rewrite spec_decode_length, <- half_strlen. exact Hi.
Qed.

(** The outcome of the decoder on a string of hex digits that fits the
    buffer. *)
Lemma hex_string_to_binary_success mem buf :
  all_hex mem = true -> strlen mem mod 2 = 0 -> strlen mem <= INT_MAX ->
  strlen mem / 2 <= Z.of_nat (length buf) ->
  exists buf',
    hex_string_to_binary mem buf = Returns (strlen mem / 2, buf') /\
    length buf' = length buf /\
    (forall j, 0 <= j < strlen mem / 2 ->
       pair_valid mem j = true /\ buf' !! Z.to_nat j = Some (pair_byte mem j)) /\
    (forall j : nat, strlen mem / 2 <= Z.of_nat j -> buf' !! j = buf !! j).
Proof.
  intros Hhex Heven Hmax Hcap.
  pose proof (hex_string_to_binary_even_length mem buf Hmax Heven) as Hpost.
  pose proof (all_hex_true mem Hhex) as Hall.
  pose proof (strlen_nonneg mem) as Hn0.
  assert (Hn : strlen mem = 2 * (strlen mem / 2)).
  { rewrite (Z.div_mod (strlen mem) 2) at 1 by lia. lia. }
  destruct (hex_string_to_binary mem buf) as [[count buf']| |];
    cbn [loop_post] in Hpost; [| |contradiction].
  - destruct Hpost as (Hlen & m & Hm & Hdone & Hframe & _ & [[-> ->]|(Hlt & Hbad & _)]).
    + exists buf'. repeat split; try assumption; try (apply Hdone; assumption).
      intros j Hj. apply Hframe. right. exact Hj.
    + rewrite pair_valid_true in Hbad; [discriminate|apply Hall; lia..].
  - destruct Hpost as (m & Hm & _ & Hfull). lia.
Qed.

(** The outcome of the decoder on an even-length string whose first
    non-digit is at position [p]. *)
Lemma hex_string_to_binary_failure mem buf p :
  first_invalid (c_str mem) = Some p -> strlen mem mod 2 = 0 ->
  strlen mem <= INT_MAX -> Z.of_nat p / 2 <= Z.of_nat (length buf) ->
  exists buf',
    hex_string_to_binary mem buf = Returns (0, buf') /\
    length buf' = length buf /\
    (forall j, 0 <= j < Z.of_nat p / 2 ->
       buf' !! Z.to_nat j = Some (pair_byte mem j) /\ pair_valid mem j = true) /\
    (forall j : nat, Z.of_nat p / 2 <= Z.of_nat j -> buf' !! j = buf !! j).
Proof.
  intros Hp Heven Hmax Hcap.
  pose proof (hex_string_to_binary_even_length mem buf Hmax Heven) as Hpost.
  destruct (first_invalid_some _ _ Hp) as (Hlt & Hbad & Hgood).
  assert (Hps : 0 <= Z.of_nat p < strlen mem) by (unfold strlen; lia).
  rewrite char_at_c_str in Hbad by exact Hps.
  assert (Hgood' : forall i, 0 <= i < Z.of_nat p -> is_hex_digit (char_at mem i) = true).
  { intros i Hi. rewrite <- char_at_c_str by lia. apply Hgood. exact Hi. }
  pose proof (pair_valid_false mem (Z.of_nat p) ltac:(lia) Hbad) as Hk.
  pose proof (Z.div_mod (Z.of_nat p) 2) as Hdm.
  pose proof (Z.mod_pos_bound (Z.of_nat p) 2) as Hmb.
  assert (Hn : strlen mem = 2 * (strlen mem / 2)).
  { rewrite (Z.div_mod (strlen mem) 2) at 1 by lia. lia. }
  assert (Hbefore : forall j, 0 <= j < Z.of_nat p / 2 -> pair_valid mem j = true).
  { intros j Hj. apply pair_valid_true; apply Hgood'; lia. }
  destruct (hex_string_to_binary mem buf) as [[count buf']| |];
    cbn [loop_post] in Hpost; [| |contradiction].
  - destruct Hpost as (Hlen & m & Hm & Hdone & Hframe & _ & Hstop).
    assert (Hmk : m = Z.of_nat p / 2).
    { destruct (Z.lt_trichotomy m (Z.of_nat p / 2)) as [Hc|[Hc|Hc]]; [|exact Hc|].
      - destruct Hstop as [[-> _]|(_ & Hbadm & _)]; [lia|].
        rewrite Hbefore in Hbadm by lia. discriminate.
      - destruct (Hdone (Z.of_nat p / 2) ltac:(lia)) as [Hv _]. congruence. }
    subst m. exists buf'.
    destruct Hstop as [[Hh _]|(_ & _ & ->)]; [lia|].
    split; [reflexivity|]. split; [exact Hlen|]. split.
    + intros j Hj. destruct (Hdone j Hj). split; assumption.
    + intros j Hj. apply Hframe. right. exact Hj.
  - destruct Hpost as (m & Hm & Hvalid & Hfull).
    destruct (Z.le_gt_cases (Z.of_nat p / 2) m) as [Hc|Hc]; [|lia].
    rewrite Hvalid in Hk by lia. discriminate.
Qed.

Lemma no_write_beyond_input mem buf count buf' :
  strlen mem <= INT_MAX ->
  hex_string_to_binary mem buf = Returns (count, buf') ->
  length buf' = length buf /\
  forall j : nat, strlen mem / 2 <= Z.of_nat j -> buf' !! j = buf !! j.
Proof.
  intros Hmax Hrun. pose proof (strlen_nonneg mem) as Hn0.
  pose proof (Z.mod_pos_bound (strlen mem) 2 ltac:(lia)) as Hb.
  destruct (Z.eq_dec (strlen mem mod 2) 0) as [Heven|Hodd].
  - pose proof (hex_string_to_binary_even_length mem buf Hmax Heven) as Hpost.
    rewrite Hrun in Hpost. cbn [loop_post] in Hpost.
    destruct Hpost as (Hlen & m & Hm & _ & Hframe & _).
    split; [exact Hlen|]. intros j Hj. apply Hframe. lia.
  - rewrite hex_string_to_binary_odd_length in Hrun by lia.
    injection Hrun as _ <-. split; reflexivity.
Qed.

Ltac by_computation :=
  vm_compute; first [reflexivity | let Hc := fresh in intro Hc; discriminate Hc].

(** ** The claims about the decoder *)

(** C1: on an even-length string made only of the digits 0-9, A-F, a-f (and
    short enough for [int], with room for [len/2] bytes in the buffer) the
    decoder returns the count [len/2], and output byte [j] is
    [16 * nibble(input[2j]) + nibble(input[2j+1])]. *)
Theorem hex_string_to_binary_decodes_pairs mem buf :
  all_hex mem = true -> strlen mem mod 2 = 0 -> strlen mem <= INT_MAX ->
  strlen mem / 2 <= Z.of_nat (length buf) ->
  exists buf',
    hex_string_to_binary mem buf = Returns (strlen mem / 2, buf') /\
    forall j, 0 <= j < strlen mem / 2 ->
      buf' !! Z.to_nat j =
        Some (16 * nibble (char_at mem (2 * j)) + nibble (char_at mem (2 * j + 1))).
Proof.
  intros Hhex Heven Hmax Hcap.
  destruct (hex_string_to_binary_success mem buf Hhex Heven Hmax Hcap)
    as (buf' & Hrun & _ & Hpairs & _).
  exists buf'. split; [exact Hrun|].
  intros j Hj. destruct (Hpairs j Hj) as [Hv Hb].
  rewrite Hb. f_equal. apply pair_byte_nibbles. exact Hv.
Qed.

Lemma hex_string_to_binary_decodes_pairs_witness :
  exists buf',
    hex_string_to_binary "1aF0" [7; 7; 7] = Returns (strlen "1aF0" / 2, buf') /\
    forall j, 0 <= j < strlen "1aF0" / 2 ->
      buf' !! Z.to_nat j =
        Some (16 * nibble (char_at "1aF0" (2 * j)) + nibble (char_at "1aF0" (2 * j + 1))).
Proof.
  apply (hex_string_to_binary_decodes_pairs "1aF0" [7; 7; 7]); by_computation.
Defined.

(** C2: on a string of odd length, whatever its characters, the decoder
    returns its failure value 0 and the output buffer is left exactly as it
    was: no byte is written. *)
Theorem odd_length_fails_without_writes mem buf :
  strlen mem mod 2 = 1 -> strlen mem <= INT_MAX ->
  hex_string_to_binary mem buf = Returns (0, buf).
Proof.
  intros Hodd Hmax. apply hex_string_to_binary_odd_length; assumption.
Qed.

Lemma odd_length_fails_without_writes_witness :
  hex_string_to_binary "A" [7; 7] = Returns (0, [7; 7])
  /\ hex_string_to_binary (replicate_char 161 "z") [7; 7] = Returns (0, [7; 7]).
Proof.
  split.
  - apply (odd_length_fails_without_writes "A" [7; 7]); by_computation.
  - apply (odd_length_fails_without_writes (replicate_char 161 "z") [7; 7]);
      by_computation.
Defined.

(** C3: on an even-length string holding at least one character outside
    [0-9A-Fa-f] the decoder signals failure: it returns 0, not a positive
    byte count. *)
Theorem invalid_digit_fails mem buf :
  all_hex mem = false -> strlen mem mod 2 = 0 -> strlen mem <= INT_MAX ->
  strlen mem / 2 <= Z.of_nat (length buf) ->
  exists buf', hex_string_to_binary mem buf = Returns (0, buf').
Proof.
  intros Hbad Heven Hmax Hcap. unfold all_hex in Hbad.
  destruct (first_invalid (c_str mem)) as [p|] eqn:Hp; [|discriminate].
  destruct (first_invalid_some _ _ Hp) as (Hlt & _ & _).
  assert (Hroom : Z.of_nat p / 2 <= Z.of_nat (length buf)).
  { etransitivity; [|exact Hcap]. apply Z.div_le_mono; unfold strlen; lia. }
  destruct (hex_string_to_binary_failure mem buf p Hp Heven Hmax Hroom)
    as (buf' & Hrun & _).
  exists buf'. exact Hrun.
Qed.

Lemma invalid_digit_fails_witness :
  exists buf', hex_string_to_binary "12g4" [7; 7] = Returns (0, buf').
Proof.
  apply (invalid_digit_fails "12g4" [7; 7]); by_computation.
Defined.

(** C10: when the decoder fails on an even-length string whose first invalid
    character lies in pair [k], bytes [0..k-1] of the buffer hold the decoded
    preceding pairs and every byte from [k] on keeps its contents; and on no
    input is a byte at index [len/2] or beyond changed. *)
Theorem failure_frame mem buf :
  strlen mem <= INT_MAX ->
  (forall p, first_invalid (c_str mem) = Some p -> strlen mem mod 2 = 0 ->
     Z.of_nat p / 2 <= Z.of_nat (length buf) ->
     exists buf',
       hex_string_to_binary mem buf = Returns (0, buf') /\
       length buf' = length buf /\
       (forall j, 0 <= j < Z.of_nat p / 2 ->
          buf' !! Z.to_nat j =
            Some (16 * nibble (char_at mem (2 * j)) + nibble (char_at mem (2 * j + 1)))) /\
       (forall j : nat, Z.of_nat p / 2 <= Z.of_nat j -> buf' !! j = buf !! j))
  /\ (forall count buf',
        hex_string_to_binary mem buf = Returns (count, buf') ->
        length buf' = length buf /\
        forall j : nat, strlen mem / 2 <= Z.of_nat j -> buf' !! j = buf !! j).
Proof.
  intros Hmax. split.
  - intros p Hp Heven Hroom.
    destruct (hex_string_to_binary_failure mem buf p Hp Heven Hmax Hroom)
      as (buf' & Hrun & Hlen & Hdone & Hframe).
    exists buf'. repeat split; try assumption.
    intros j Hj. destruct (Hdone j Hj) as [Hb Hv].
    rewrite Hb. f_equal. apply pair_byte_nibbles. exact Hv.
  - intros count buf' Hrun. eapply no_write_beyond_input; eassumption.
Qed.

Lemma failure_frame_witness :
  exists buf',
    hex_string_to_binary "12c4G6" [7; 8; 9; 10] = Returns (0, buf') /\
    length buf' = length [7; 8; 9; 10] /\
    (forall j, 0 <= j < Z.of_nat 4 / 2 ->
       buf' !! Z.to_nat j =
         Some (16 * nibble (char_at "12c4G6" (2 * j))
               + nibble (char_at "12c4G6" (2 * j + 1)))) /\
    (forall j : nat, Z.of_nat 4 / 2 <= Z.of_nat j -> buf' !! j = [7; 8; 9; 10] !! j).
Proof.
  apply (proj1 (failure_frame "12c4G6" [7; 8; 9; 10] ltac:(by_computation)) 4%nat);
    by_computation.
Defined.

Example failure_frame_example :
  hex_string_to_binary "12c4G6" [7; 8; 9; 10] = Returns (0, [18; 196; 9; 10]).
Proof. reflexivity. Qed.

(** C7, as stated, fails: there are no two distinct return values, one for
    every odd-length input and another for every even-length input with a
    non-digit.  ["A"] and ["GG"] both make the decoder return 0. *)
Lemma failure_causes_not_distinguished :
  ~ exists odd_length invalid_digit : Z,
      odd_length <> invalid_digit /\
      (forall mem buf, strlen mem <= INT_MAX -> strlen mem mod 2 = 1 ->
         exists buf', hex_string_to_binary mem buf = Returns (odd_length, buf')) /\
      (forall mem buf, strlen mem <= INT_MAX ->
         strlen mem / 2 <= Z.of_nat (length buf) ->
         strlen mem mod 2 = 0 -> all_hex mem = false ->
         exists buf', hex_string_to_binary mem buf = Returns (invalid_digit, buf')).
Proof.
  intros (a & b & Hne & Hodd & Hbad).
  destruct (Hodd "A"%string [] ltac:(by_computation) ltac:(by_computation))
    as [b1 H1].
  destruct (Hbad "GG"%string [0] ltac:(by_computation) ltac:(by_computation)
              ltac:(by_computation) ltac:(by_computation)) as [b2 H2].
  vm_compute in H1, H2. congruence.
Qed.

(** C7, amended: both failure causes are reported by the same return value
    0; an odd-length input and an even-length input with a non-digit cannot
    be told apart from the returned value. *)
Theorem failure_causes_share_return_value mem1 buf1 mem2 buf2 :
  strlen mem1 <= INT_MAX -> strlen mem1 mod 2 = 1 ->
  strlen mem2 <= INT_MAX -> strlen mem2 mod 2 = 0 -> all_hex mem2 = false ->
  strlen mem2 / 2 <= Z.of_nat (length buf2) ->
  exists buf1' buf2',
    hex_string_to_binary mem1 buf1 = Returns (0, buf1') /\
    hex_string_to_binary mem2 buf2 = Returns (0, buf2').
Proof.
  intros Hmax1 Hodd Hmax2 Heven Hbad Hcap.
  exists buf1. unfold all_hex in Hbad.
  destruct (first_invalid (c_str mem2)) as [p|] eqn:Hp; [|discriminate].
  destruct (first_invalid_some _ _ Hp) as (Hlt & _ & _).
  assert (Hroom : Z.of_nat p / 2 <= Z.of_nat (length buf2)).
  { etransitivity; [|exact Hcap]. apply Z.div_le_mono; unfold strlen; lia. }
  destruct (hex_string_to_binary_failure mem2 buf2 p Hp Heven Hmax2 Hroom)
    as (buf2' & Hrun & _).
  exists buf2'. split; [|exact Hrun].
  apply hex_string_to_binary_odd_length; assumption.
Qed.

Lemma failure_causes_share_return_value_witness :
  exists buf1' buf2',
    hex_string_to_binary "A" [7] = Returns (0, buf1') /\
    hex_string_to_binary "0G" [7] = Returns (0, buf2').
Proof.
  apply (failure_causes_share_return_value "A" [7] "0G" [7]); by_computation.
Defined.

(** C8, as stated, fails: the 34 characters decode to 17 bytes, and the
    returned count is not 18. *)
Lemma openthread_name_count_not_18 :
  ~ exists buf',
      hex_string_to_binary "4f70656e5468726561642d616631360102" (repeat 0 (Z.to_nat 18))
      = Returns (18, buf').
Proof.
  intros [buf' Hrun]. vm_compute in Hrun. discriminate Hrun.
Qed.

(** C8, amended: the input "4f70656e5468726561642d616631360102" decodes to
    exactly the bytes 4F 70 65 6E 54 68 72 65 61 64 2D 61 66 31 36 01 02,
    and the returned count is 17. *)
Theorem openthread_name_decodes_17 buf :
  17 <= Z.of_nat (length buf) ->
  exists buf',
    hex_string_to_binary "4f70656e5468726561642d616631360102" buf = Returns (17, buf') /\
    take (Z.to_nat 17) buf' =
      [0x4F; 0x70; 0x65; 0x6E; 0x54; 0x68; 0x72; 0x65; 0x61; 0x64; 0x2D; 0x61;
       0x66; 0x31; 0x36; 0x01; 0x02].
Proof.
  intros Hcap.
  set (mem := "4f70656e5468726561642d616631360102"%string).
  assert (Hhalf : strlen mem / 2 = 17) by reflexivity.
  destruct (hex_string_to_binary_success mem buf) as (buf' & Hrun & _ & Hpairs & _);
    [by_computation..| |].
  { rewrite Hhalf. exact Hcap. }
  exists buf'. rewrite Hhalf in Hrun. split; [exact Hrun|].
  rewrite <- Hhalf. rewrite (decoded_prefix mem buf'); [reflexivity|reflexivity|exact Hpairs].
Qed.

Lemma openthread_name_decodes_17_witness :
  exists buf',
    hex_string_to_binary "4f70656e5468726561642d616631360102" (repeat 9 (Z.to_nat 18))
    = Returns (17, buf') /\
    take (Z.to_nat 17) buf' =
      [0x4F; 0x70; 0x65; 0x6E; 0x54; 0x68; 0x72; 0x65; 0x61; 0x64; 0x2D; 0x61;
       0x66; 0x31; 0x36; 0x01; 0x02].
Proof.
  apply (openthread_name_decodes_17 (repeat 9 (Z.to_nat 18))); by_computation.
Defined.

(** ** Upper case *)

Lemma toupper_nul c : Ascii.eqb (toupper c) NUL = Ascii.eqb c NUL.
Proof. each_char c. Qed.

Lemma hex_digit_to_int_toupper c :
  hex_digit_to_int (toupper c) = hex_digit_to_int c.
Proof. each_char c. Qed.

Lemma hex_char_upper_nibble c :
  is_hex_digit c = true -> hex_char_upper (nibble c) = toupper c.
Proof. each_char c. Qed.

Lemma c_str_uppercase mem : c_str (uppercase mem) = uppercase (c_str mem).
Proof.
  induction mem as [|c rest IH]; [reflexivity|].
  cbn [uppercase c_str]. rewrite toupper_nul.
  destruct (Ascii.eqb c NUL); [reflexivity|]. cbn [uppercase]. rewrite IH. reflexivity.
Qed.

Lemma length_uppercase s : String.length (uppercase s) = String.length s.
Proof. induction s as [|c rest IH]; [reflexivity|]. cbn. rewrite IH. reflexivity. Qed.

Lemma strlen_uppercase mem : strlen (uppercase mem) = strlen mem.
Proof. unfold strlen. rewrite c_str_uppercase, length_uppercase. reflexivity. Qed.

Lemma get_uppercase s : forall i,
  String.get i (uppercase s) = option_map toupper (String.get i s).
Proof.
  induction s as [|c rest IH]; intros i; [reflexivity|].
  destruct i as [|i]; [reflexivity|]. cbn. apply IH.
Qed.

Lemma char_at_uppercase mem i : char_at (uppercase mem) i = toupper (char_at mem i).
Proof.
  unfold char_at. destruct (i <? 0); [reflexivity|].
  rewrite get_uppercase. destruct (String.get (Z.to_nat i) mem); reflexivity.
Qed.

Lemma hex_loop_uppercase mem num_char : forall fuel i buf,
  hex_loop fuel (uppercase mem) num_char i buf = hex_loop fuel mem num_char i buf.
Proof.
  induction fuel as [|fuel IH]; intros i buf; [reflexivity|].
  cbn [hex_loop]. rewrite !char_at_uppercase, !hex_digit_to_int_toupper.
  destruct (i <? to_size_t num_char); [|reflexivity].
  destruct ((hex_digit_to_int (char_at mem i) <? 0)
            || (hex_digit_to_int (char_at mem (i + 1)) <? 0)); [reflexivity|].
  destruct (store buf (i / 2) _); [apply IH|reflexivity].
Qed.

Lemma hex_string_to_binary_uppercase mem buf :
  hex_string_to_binary (uppercase mem) buf = hex_string_to_binary mem buf.
Proof.
  unfold hex_string_to_binary. rewrite strlen_uppercase, hex_loop_uppercase.
  reflexivity.
Qed.

(** Encoding the decoded form gives the string back in upper case. *)
Lemma encode_spec_decode s :
  first_invalid s = None -> Nat.even (String.length s) = true ->
  encode_upper (spec_decode s) = uppercase s.
Proof.
  induction s as [|c|hi lo rest IH] using string_pair_ind; intros Hhex Heven;
    [reflexivity|discriminate|].
  cbn [first_invalid] in Hhex.
  destruct (is_hex_digit hi) eqn:Hhi; [|discriminate].
  destruct (is_hex_digit lo) eqn:Hlo; [|discriminate].
  destruct (first_invalid rest) eqn:Hrest; [discriminate|].
  cbn [spec_decode encode_upper uppercase].
  pose proof (nibble_range hi). pose proof (nibble_range lo).
  replace ((16 * nibble hi + nibble lo) / 16) with (nibble hi)
    by (apply Z.div_unique with (r := nibble lo); lia).
  replace ((16 * nibble hi + nibble lo) mod 16) with (nibble lo)
    by (apply Z.mod_unique with (q := nibble hi); lia).
  rewrite !hex_char_upper_nibble by assumption.
  rewrite IH; [reflexivity|reflexivity|exact Heven].
Qed.

Lemma strlen_even_nat mem :
  strlen mem mod 2 = 0 -> Nat.even (String.length (c_str mem)) = true.
Proof.
  unfold strlen. intros H. apply Nat.even_spec.
  exists (Z.to_nat (Z.of_nat (String.length (c_str mem)) / 2)).
  pose proof (Z.div_mod (Z.of_nat (String.length (c_str mem))) 2 ltac:(lia)). lia.
Qed.

(** C6: decoding does not depend on the case of the digits, and encoding
    the decoded bytes in upper-case hex gives the upper-cased input back. *)
Theorem decoding_case_insensitive_round_trip mem buf :
  all_hex mem = true -> strlen mem mod 2 = 0 -> strlen mem <= INT_MAX ->
  strlen mem / 2 <= Z.of_nat (length buf) ->
  hex_string_to_binary mem buf = hex_string_to_binary (uppercase mem) buf /\
  exists buf',
    hex_string_to_binary mem buf = Returns (strlen mem / 2, buf') /\
    encode_upper (take (Z.to_nat (strlen mem / 2)) buf') = uppercase (c_str mem).
Proof.
  intros Hhex Heven Hmax Hcap.
  split; [symmetry; apply hex_string_to_binary_uppercase|].
  destruct (hex_string_to_binary_success mem buf Hhex Heven Hmax Hcap)
    as (buf' & Hrun & _ & Hpairs & _).
  exists buf'. split; [exact Hrun|].
  rewrite (decoded_prefix mem buf' Heven Hpairs).
  apply encode_spec_decode; [|apply strlen_even_nat; exact Heven].
  unfold all_hex in Hhex. destruct (first_invalid (c_str mem)); [discriminate|reflexivity].
Qed.

Lemma decoding_case_insensitive_round_trip_witness :
  hex_string_to_binary "aB0f" [7; 7] = hex_string_to_binary (uppercase "aB0f") [7; 7] /\
  exists buf',
    hex_string_to_binary "aB0f" [7; 7] = Returns (strlen "aB0f" / 2, buf') /\
    encode_upper (take (Z.to_nat (strlen "aB0f" / 2)) buf') = uppercase (c_str "aB0f").
Proof.
  apply (decoding_case_insensitive_round_trip "aB0f" [7; 7]); by_computation.
Defined.

Example mixed_case_decodes_alike :
  hex_string_to_binary "aB" [0] = Returns (1, [0xAB]) /\
  hex_string_to_binary "Ab" [0] = Returns (1, [0xAB]) /\
  hex_string_to_binary "AB" [0] = Returns (1, [0xAB]) /\
  hex_string_to_binary "ab" [0] = Returns (1, [0xAB]).
Proof. repeat split. Qed.

(** ** The dataset builder *)

Lemma length_uninit_tlvs max_len uninit :
  length (uninit_tlvs max_len uninit) = Z.to_nat max_len.
Proof. unfold uninit_tlvs. rewrite length_map, length_seq. reflexivity. Qed.

Lemma link_setup_ok_true instance :
  link_setup_ok instance = true ->
  ot_failed (otLinkSetPollPeriod instance CONFIG_OPENTHREAD_NETWORK_POLLPERIOD_TIME) = false /\
  ot_failed (otThreadSetLinkMode instance linkMode) = false.
Proof.
  unfold link_setup_ok. intros H. apply andb_prop in H as [H1 H2].
  split; apply negb_true_iff; assumption.
Qed.

(** A string that fails the length test is rejected before the decoder is
    called. *)
Lemma length_test_rejects max_len dataset instance uninit uninit_len :
  link_setup_ok instance = true ->
  to_uint16 (strlen dataset) > max_len * 2 ->
  create_config_network max_len dataset instance uninit uninit_len = DatasetTooLong.
Proof.
  intros Hok Hlong. apply link_setup_ok_true in Hok as [H1 H2].
  unfold create_config_network, DatasetTooLong, bind, call, emit, abort, ret.
  rewrite H1, H2.
  destruct (Z.gtb_spec (to_uint16 (strlen dataset)) (max_len * 2)); [reflexivity|lia].
Qed.

(** A decoder result whose count is stored as 0 makes the builder fail. *)
Lemma zero_count_rejected max_len dataset instance uninit uninit_len count buf' :
  link_setup_ok instance = true ->
  to_uint16 (strlen dataset) <= max_len * 2 ->
  hex_string_to_binary dataset (uninit_tlvs max_len uninit) = Returns (count, buf') ->
  to_uint8 count = 0 ->
  create_config_network max_len dataset instance uninit uninit_len = DatasetDecodeFailed.
Proof.
  intros Hok Hshort Hrun Hzero. apply link_setup_ok_true in Hok as [H1 H2].
  unfold create_config_network, DatasetDecodeFailed, bind, call, emit, abort, ret,
    of_result.
  rewrite H1, H2.
  destruct (Z.gtb_spec (to_uint16 (strlen dataset)) (max_len * 2)); [lia|].
  cbn [mTlvs]. rewrite Hrun. cbn [fst snd mLength]. rewrite Hzero. reflexivity.
Qed.


(** With room for [len/2] bytes the decoder stays inside the buffer. *)
Lemma hex_string_to_binary_defined mem buf :
  strlen mem <= INT_MAX -> strlen mem / 2 <= Z.of_nat (length buf) ->
  exists count buf', hex_string_to_binary mem buf = Returns (count, buf').
Proof.
  intros Hmax Hcap. pose proof (strlen_nonneg mem) as Hn0.
  pose proof (Z.mod_pos_bound (strlen mem) 2 ltac:(lia)) as Hb.
  destruct (Z.eq_dec (strlen mem mod 2) 0) as [Heven|Hodd].
  - pose proof (hex_string_to_binary_even_length mem buf Hmax Heven) as Hpost.
    destruct (hex_string_to_binary mem buf) as [[count buf']| |];
      cbn [loop_post] in Hpost; [eauto| |contradiction].
    destruct Hpost as (m & Hm & _ & Hfull). lia.
  - exists 0, buf. apply hex_string_to_binary_odd_length; lia.
Qed.

(** X15: below 2^16 characters the length test keeps the decoder inside the
    array of [datasetTlvs]: no run stores outside it, and none exhausts the
    budget of the loop. *)
Lemma create_config_network_defined max_len dataset instance uninit uninit_len :
  strlen dataset < 2 ^ 16 ->
  snd (create_config_network max_len dataset instance uninit uninit_len) <> Undef /\
  snd (create_config_network max_len dataset instance uninit uninit_len) <> NoFuel.
Proof.
  intros Hlt. pose proof (strlen_nonneg dataset) as Hn0.
  unfold create_config_network, bind, call, emit, abort, ret, of_result.
  cbn [mTlvs].
  destruct (ot_failed (otLinkSetPollPeriod instance _)); [split; discriminate|].
  destruct (ot_failed (otThreadSetLinkMode instance _)); [split; discriminate|].
  rewrite to_uint16_small by lia.
  destruct (Z.gtb_spec (strlen dataset) (max_len * 2)) as [Hgt|Hle];
    [split; discriminate|].
  destruct (hex_string_to_binary_defined dataset (uninit_tlvs max_len uninit))
    as (count & buf' & ->).
  { unfold INT_MAX. lia. }
  { rewrite length_uninit_tlvs.
    assert (strlen dataset / 2 <= max_len) by (apply Z.div_le_upper_bound; lia).
    lia. }
  cbn [fst snd mLength].
  destruct (to_uint8 count =? 0); [split; discriminate|].
  destruct (ot_failed (otDatasetSetActiveTlvs instance _)); [split; discriminate|].
  destruct (ot_failed (otIp6SetEnabled instance true)); [split; discriminate|].
  destruct (ot_failed (otThreadSetEnabled instance true)); split; discriminate.
Qed.

(** A string that passes the length test reaches the decoder. *)
Lemma length_test_accepts max_len dataset instance uninit uninit_len :
  link_setup_ok instance = true ->
  to_uint16 (strlen dataset) <= max_len * 2 ->
  In CallHexStringToBinary
     (fst (create_config_network max_len dataset instance uninit uninit_len)).
Proof.
  intros Hok Hshort. apply link_setup_ok_true in Hok as [H1 H2].
  unfold create_config_network, bind, call, emit, abort, ret, of_result.
  rewrite H1, H2.
  destruct (Z.gtb_spec (to_uint16 (strlen dataset)) (max_len * 2)); [lia|].
  cbn [mTlvs].
  destruct (hex_string_to_binary dataset (uninit_tlvs max_len uninit))
    as [[count buf']| |]; [|cbn; tauto..].
  cbn [fst snd mLength].
  destruct (to_uint8 count =? 0); [cbn; tauto|].
  destruct (ot_failed (otDatasetSetActiveTlvs instance _)); [cbn; tauto|].
  destruct (ot_failed (otIp6SetEnabled instance true)); [cbn; tauto|].
  destruct (ot_failed (otThreadSetEnabled instance true)); cbn; tauto.
Qed.

(** A string of exactly twice the maximum length passes the length test. *)
Lemma max_length_dataset_passes max_len dataset instance uninit uninit_len :
  link_setup_ok instance = true ->
  max_len <= 255 -> strlen dataset = 2 * max_len ->
  In CallHexStringToBinary
     (fst (create_config_network max_len dataset instance uninit uninit_len)).
Proof.
  intros Hok Hu8 Hlen. pose proof (strlen_nonneg dataset).
  apply length_test_accepts; [exact Hok|].
  rewrite to_uint16_small; lia.
Qed.



(** The configuration the example ships with reaches the network stack with
    its 106 decoded bytes. *)
Example shipped_dataset_handed_over :
  exists tlvs,
    In (CallDatasetSetActiveTlvs {| mTlvs := tlvs; mLength := 106 |})
       (fst (create_config_network shipped_max_length shipped_dataset ot_ok
               (fun _ => 0) 0)) /\
    take (Z.to_nat 106) tlvs = spec_decode shipped_dataset /\
    snd (create_config_network shipped_max_length shipped_dataset ot_ok (fun _ => 0) 0)
    = Done tt.
Proof.
  eexists. split; [|split]; [vm_compute; do 3 right; left; reflexivity|..];
    reflexivity.
Qed.

(** Below 2^16 characters the length test compares the true length. *)
Lemma length_test_below_64k max_len dataset instance uninit uninit_len :
  link_setup_ok instance = true ->
  strlen dataset < 2 ^ 16 -> strlen dataset > 2 * max_len ->
  create_config_network max_len dataset instance uninit uninit_len = DatasetTooLong.
Proof.
  intros Hok Hlt Hlong. pose proof (strlen_nonneg dataset).
  apply length_test_rejects; [exact Hok|].
  rewrite to_uint16_small; lia.
Qed.

(** C5 fails on the code.  The length is narrowed to [uint16_t] before it is
    compared: with a maximum of 254, a string of 65538 characters is taken
    for one of 2 characters and passes the test.  The decoder is called; on
    65538 digits it stores past the 254-byte array, and on 65538 non-digits
    the run ends as a decode failure. *)
Theorem long_dataset_passes_length_test :
  strlen (replicate_char (Z.to_nat 65538) "0") = 65538 /\
  65538 > 2 * shipped_max_length /\
  to_uint16 65538 = 2 /\
  create_config_network shipped_max_length (replicate_char (Z.to_nat 65538) "0")
    ot_ok (fun _ => 0) 0
  = ([CallLinkSetPollPeriod CONFIG_OPENTHREAD_NETWORK_POLLPERIOD_TIME;
      CallThreadSetLinkMode linkMode;
      CallHexStringToBinary], Undef) /\
  create_config_network shipped_max_length (replicate_char (Z.to_nat 65538) "z")
    ot_ok (fun _ => 0) 0
  = DatasetDecodeFailed.
Proof.
  split; [by_computation|]. split; [by_computation|]. split; [by_computation|].
  split; by_computation.
Qed.

(** C9: the decoder accepts the empty string and returns the count 0
    without touching the buffer, while [create_config_network] treats every
    decoded count of 0, the empty string included, as a failed conversion. *)
Theorem empty_string_two_policies :
  (forall buf, hex_string_to_binary "" buf = Returns (0, buf)) /\
  (forall max_len dataset instance uninit uninit_len buf',
     link_setup_ok instance = true ->
     to_uint16 (strlen dataset) <= max_len * 2 ->
     hex_string_to_binary dataset (uninit_tlvs max_len uninit) = Returns (0, buf') ->
     create_config_network max_len dataset instance uninit uninit_len
     = DatasetDecodeFailed) /\
  (forall max_len instance uninit uninit_len,
     link_setup_ok instance = true -> 0 <= max_len ->
     create_config_network max_len "" instance uninit uninit_len
     = DatasetDecodeFailed).
Proof.
  split; [reflexivity|]. split.
  - intros max_len dataset instance uninit uninit_len buf' Hok Hshort Hrun.
    eapply zero_count_rejected; [exact Hok|exact Hshort|exact Hrun|reflexivity].
  - intros max_len instance uninit uninit_len Hok Hmax.
    eapply zero_count_rejected; [exact Hok| |reflexivity|reflexivity].
    change (to_uint16 (strlen "")) with 0. lia.
Qed.

Lemma empty_string_two_policies_witness :
  hex_string_to_binary "" [7; 7] = Returns (0, [7; 7]) /\
  create_config_network 254 "" ot_ok (fun _ => 0) 0 = DatasetDecodeFailed /\
  create_config_network 254 "zz" ot_ok (fun _ => 0) 0 = DatasetDecodeFailed.
Proof.
  destruct empty_string_two_policies as (Hdec & Hzero & Hempty).
  split; [apply Hdec|]. split.
  - apply Hempty; by_computation.
  - apply (Hzero 254 "zz"%string ot_ok (fun _ => 0) 0 (uninit_tlvs 254 (fun _ => 0)));
      by_computation.
Defined.

(** ** The iteration budget *)

(** A run that ends within its budget ends the same way with a larger one. *)
Lemma hex_loop_fuel_mono mem num_char : forall fuel fuel' i buf,
  (fuel <= fuel')%nat ->
  hex_loop fuel mem num_char i buf <> OutOfFuel ->
  hex_loop fuel' mem num_char i buf = hex_loop fuel mem num_char i buf.
Proof.
  induction fuel as [|fuel IH]; intros fuel' i buf Hle Hrun;
    [contradiction Hrun; reflexivity|].
  destruct fuel' as [|fuel']; [lia|].
  cbn [hex_loop] in *.
  destruct (i <? to_size_t num_char); [|reflexivity].
  destruct ((hex_digit_to_int (char_at mem i) <? 0)
            || (hex_digit_to_int (char_at mem (i + 1)) <? 0)); [reflexivity|].
  destruct (store buf (i / 2) _); [|reflexivity].
  apply IH; [lia|exact Hrun].
Qed.

(** The budget given to the loop is never exhausted. *)
Lemma hex_string_to_binary_terminates mem buf :
  strlen mem <= INT_MAX -> hex_string_to_binary mem buf <> OutOfFuel.
Proof.
  intros Hmax. pose proof (strlen_nonneg mem) as Hn0.
  pose proof (Z.mod_pos_bound (strlen mem) 2 ltac:(lia)) as Hb.
  destruct (Z.eq_dec (strlen mem mod 2) 0) as [Heven|Hodd].
  - pose proof (hex_string_to_binary_even_length mem buf Hmax Heven) as Hpost.
    intros E. rewrite E in Hpost. exact Hpost.
  - rewrite hex_string_to_binary_odd_length by lia. discriminate.
Qed.

(** * Further properties of the decoder *)

Lemma c_str_idempotent mem : c_str (c_str mem) = c_str mem.
Proof.
  induction mem as [|c rest IH]; [reflexivity|].
  cbn [c_str]. destruct (Ascii.eqb c NUL) eqn:E; [reflexivity|].
  cbn [c_str]. rewrite E, IH. reflexivity.
Qed.

Lemma strlen_c_str mem : strlen (c_str mem) = strlen mem.
Proof. unfold strlen. rewrite c_str_idempotent. reflexivity. Qed.

Lemma even_halves n : 0 <= n -> n mod 2 = 0 -> n = 2 * (n / 2).
Proof. intros Hn He. rewrite (Z.div_mod n 2) at 1 by lia. lia. Qed.

(** The loop reads only characters before the terminator. *)
Lemma hex_loop_reads_c_str mem :
  strlen mem <= INT_MAX -> strlen mem mod 2 = 0 ->
  forall fuel k buf, 0 <= k ->
    hex_loop fuel mem (strlen mem) (2 * k) buf
    = hex_loop fuel (c_str mem) (strlen mem) (2 * k) buf.
Proof.
  intros Hmax Heven. pose proof (strlen_nonneg mem) as Hn0.
  pose proof (even_halves _ Hn0 Heven) as Hn.
  assert (Hsz : to_size_t (strlen mem) = strlen mem).
  { apply to_size_t_small. unfold INT_MAX in Hmax. lia. }
  induction fuel as [|fuel IH]; intros k buf Hk; [reflexivity|].
  cbn [hex_loop]. rewrite Hsz.
  destruct (Z.ltb_spec (2 * k) (strlen mem)) as [Hlt|Hge]; [|reflexivity].
  rewrite !char_at_c_str by lia.
  destruct ((hex_digit_to_int (char_at mem (2 * k)) <? 0)
            || (hex_digit_to_int (char_at mem (2 * k + 1)) <? 0)); [reflexivity|].
  destruct (store buf (2 * k / 2) _); [|reflexivity].
  replace (to_size_t (2 * k + 2)) with (2 * (k + 1))
    by (rewrite to_size_t_small; unfold INT_MAX in Hmax; lia).
  apply IH. lia.
Qed.

Lemma hex_string_to_binary_c_str mem buf :
  strlen mem <= INT_MAX ->
  hex_string_to_binary mem buf = hex_string_to_binary (c_str mem) buf.
Proof.
  intros Hmax. pose proof (strlen_nonneg mem) as Hn0.
  unfold hex_string_to_binary. rewrite strlen_c_str.
  rewrite to_int_small by lia. rewrite Z.rem_mod_nonneg by lia.
  destruct (Z.eqb_spec (strlen mem mod 2) 1) as [_|Hne]; [reflexivity|].
  pose proof (Z.mod_pos_bound (strlen mem) 2 ltac:(lia)).
  exact (hex_loop_reads_c_str mem Hmax ltac:(lia) _ 0 buf ltac:(lia)).
Qed.

Lemma all_pairs_valid_all_hex mem :
  (forall j, 0 <= j < strlen mem / 2 -> pair_valid mem j = true) ->
  strlen mem mod 2 = 0 -> all_hex mem = true.
Proof.
  intros Hpairs Heven. pose proof (strlen_nonneg mem) as Hn0.
  pose proof (even_halves _ Hn0 Heven) as Hn.
  destruct (all_hex mem) eqn:Ha; [reflexivity|].
  destruct (all_hex_false _ Ha) as (i & Hi & Hbad).
  pose proof (pair_valid_false mem i ltac:(lia) Hbad) as Hf.
  pose proof (Z.div_mod i 2 ltac:(lia)). pose proof (Z.mod_pos_bound i 2 ltac:(lia)).
  rewrite Hpairs in Hf by lia. discriminate.
Qed.

Lemma pair_byte_range mem j : 0 <= pair_byte mem j <= 255.
Proof.
  unfold pair_byte, to_uint8.
  pose proof (Z.mod_pos_bound
    (Z.shiftl (hex_digit_to_int (char_at mem (2 * j))) 4
     + hex_digit_to_int (char_at mem (2 * j + 1))) (2 ^ 8) ltac:(lia)).
  lia.
Qed.

(** ** Digits *)

(** X1: [hex_digit_to_int] answers a value in 0..15 on the characters
    0-9, A-F, a-f and -1 on every other character. *)
Theorem hex_digit_to_int_classifies c :
  (is_hex_digit c = true /\ 0 <= hex_digit_to_int c <= 15)
  \/ (is_hex_digit c = false /\ hex_digit_to_int c = -1).
Proof.
  destruct (is_hex_digit c) eqn:Hc.
  - left. split; [reflexivity|].
    rewrite (hex_digit_to_int_hex _ Hc). apply nibble_range.
  - right. split; [reflexivity|]. apply hex_digit_to_int_not_hex. exact Hc.
Qed.

(** X2: two characters that [hex_digit_to_int] maps to the same digit value
    are the same digit up to case. *)
Theorem hex_digit_to_int_injective_up_to_case a b :
  0 <= hex_digit_to_int a -> hex_digit_to_int a = hex_digit_to_int b ->
  toupper a = toupper b.
Proof.
  intros Hpos Heq.
  destruct (is_hex_digit a) eqn:Ha;
    [|rewrite (hex_digit_to_int_not_hex _ Ha) in Hpos; lia].
  destruct (is_hex_digit b) eqn:Hb;
    [|rewrite (hex_digit_to_int_not_hex _ Hb) in Heq; lia].
  rewrite <- (hex_char_upper_nibble _ Ha), <- (hex_char_upper_nibble _ Hb).
  rewrite <- (hex_digit_to_int_hex _ Ha), <- (hex_digit_to_int_hex _ Hb), Heq.
  reflexivity.
Qed.

Lemma hex_digit_to_int_injective_up_to_case_witness : toupper "c" = toupper "C".
Proof.
  apply (hex_digit_to_int_injective_up_to_case "c" "C"); by_computation.
Defined.

(** ** What a returned count tells *)

(** X3: on a buffer with room for [len/2] bytes, a non-zero return value
    means the whole string was decoded: the string has even length, consists
    of hex digits only, the count is half its length, and the first [count]
    bytes of the buffer are the decoded form. *)
Theorem positive_count_means_decoded mem buf count buf' :
  strlen mem <= INT_MAX -> strlen mem / 2 <= Z.of_nat (length buf) ->
  hex_string_to_binary mem buf = Returns (count, buf') -> count <> 0 ->
  all_hex mem = true /\ strlen mem mod 2 = 0 /\ count = strlen mem / 2 /\
  take (Z.to_nat count) buf' = spec_decode (c_str mem).
Proof.
  intros Hmax Hcap Hrun Hnz. pose proof (strlen_nonneg mem) as Hn0.
  pose proof (Z.mod_pos_bound (strlen mem) 2 ltac:(lia)) as Hb.
  destruct (Z.eq_dec (strlen mem mod 2) 0) as [Heven|Hodd].
  - pose proof (hex_string_to_binary_even_length mem buf Hmax Heven) as Hpost.
    rewrite Hrun in Hpost. cbn [loop_post] in Hpost.
    destruct Hpost as (_ & m & Hm & Hdone & _ & _ & [[-> ->]|(_ & _ & ->)]);
      [|contradiction Hnz; reflexivity].
    split; [|split; [exact Heven|split; [reflexivity|]]].
    + apply all_pairs_valid_all_hex; [|exact Heven].
      intros j Hj. apply Hdone. exact Hj.
    + apply decoded_prefix; assumption.
  - rewrite hex_string_to_binary_odd_length in Hrun by lia.
    injection Hrun as <- _. contradiction Hnz. reflexivity.
Qed.

Lemma positive_count_means_decoded_witness :
  all_hex "c0de" = true /\ strlen "c0de" mod 2 = 0 /\ 2 = strlen "c0de" / 2 /\
  take (Z.to_nat 2) [192; 222; 7] = spec_decode (c_str "c0de").
Proof.
  apply (positive_count_means_decoded "c0de" [7; 7; 7] 2 [192; 222; 7]);
    by_computation.
Defined.

(** X4: with room for [len/2] bytes the decoder never stores outside the
    buffer: it returns, the count is 0 or [len/2], and the buffer keeps its
    length. *)
Theorem enough_room_returns mem buf :
  strlen mem <= INT_MAX -> strlen mem / 2 <= Z.of_nat (length buf) ->
  exists count buf',
    hex_string_to_binary mem buf = Returns (count, buf') /\
    (count = 0 \/ count = strlen mem / 2) /\
    length buf' = length buf.
Proof.
  intros Hmax Hcap. pose proof (strlen_nonneg mem) as Hn0.
  pose proof (Z.mod_pos_bound (strlen mem) 2 ltac:(lia)) as Hb.
  destruct (Z.eq_dec (strlen mem mod 2) 0) as [Heven|Hodd].
  - pose proof (hex_string_to_binary_even_length mem buf Hmax Heven) as Hpost.
    destruct (hex_string_to_binary mem buf) as [[count buf']| |];
      cbn [loop_post] in Hpost; [| |contradiction].
    + destruct Hpost as (Hlen & m & _ & _ & _ & _ & Hstop).
      exists count, buf'. split; [reflexivity|]. split; [|exact Hlen].
      destruct Hstop as [[_ ->]|(_ & _ & ->)]; [right|left]; reflexivity.
    + destruct Hpost as (m & Hm & _ & Hfull). lia.
  - exists 0, buf. split; [|split; [left|]; reflexivity].
    apply hex_string_to_binary_odd_length; lia.
Qed.

Lemma enough_room_returns_witness :
  exists count buf',
    hex_string_to_binary "0aZ9" [7; 7] = Returns (count, buf') /\
    (count = 0 \/ count = strlen "0aZ9" / 2) /\
    length buf' = length [7; 7].
Proof.
  apply (enough_room_returns "0aZ9" [7; 7]); by_computation.
Defined.

(** X5: a buffer with fewer than [len/2] bytes is overrun: on an even-length
    string of hex digits the decoder stores past its end. *)
Theorem short_buffer_overrun mem buf :
  all_hex mem = true -> strlen mem mod 2 = 0 -> strlen mem <= INT_MAX ->
  Z.of_nat (length buf) < strlen mem / 2 ->
  hex_string_to_binary mem buf = Undefined.
Proof.
  intros Hhex Heven Hmax Hshort. pose proof (strlen_nonneg mem) as Hn0.
  pose proof (even_halves _ Hn0 Heven) as Hn.
  pose proof (all_hex_true mem Hhex) as Hall.
  pose proof (hex_string_to_binary_even_length mem buf Hmax Heven) as Hpost.
  destruct (hex_string_to_binary mem buf) as [[count buf']| |];
    cbn [loop_post] in Hpost; [|reflexivity|contradiction].
  destruct Hpost as (_ & m & Hm & _ & _ & Hroom & [[-> _]|(Hlt & Hbad & _)]).
  - specialize (Hroom ltac:(lia)). lia.
  - rewrite pair_valid_true in Hbad; [discriminate|apply Hall; lia..].
Qed.

Lemma short_buffer_overrun_witness :
  hex_string_to_binary "0a0b0c" [7; 7] = Undefined.
Proof.
  apply (short_buffer_overrun "0a0b0c" [7; 7]); by_computation.
Defined.

(** X6: the decoder keeps a buffer of bytes a buffer of bytes: every value
    it stores lies in 0..255. *)
Theorem bytes_stay_bytes mem buf count buf' :
  strlen mem <= INT_MAX ->
  Forall (fun b => 0 <= b <= 255) buf ->
  hex_string_to_binary mem buf = Returns (count, buf') ->
  Forall (fun b => 0 <= b <= 255) buf'.
Proof.
  intros Hmax Hbytes Hrun. pose proof (strlen_nonneg mem) as Hn0.
  pose proof (Z.mod_pos_bound (strlen mem) 2 ltac:(lia)) as Hb.
  destruct (Z.eq_dec (strlen mem mod 2) 0) as [Heven|Hodd].
  - pose proof (hex_string_to_binary_even_length mem buf Hmax Heven) as Hpost.
    rewrite Hrun in Hpost. cbn [loop_post] in Hpost.
    destruct Hpost as (_ & m & Hm & Hdone & Hframe & _).
    apply Forall_lookup. intros i x Hx.
    destruct (Z.lt_ge_cases (Z.of_nat i) m) as [Hi|Hi].
    + destruct (Hdone (Z.of_nat i) ltac:(lia)) as [_ Hstored].
      rewrite Nat2Z.id, Hx in Hstored. injection Hstored as ->.
      apply pair_byte_range.
    + rewrite Hframe in Hx by lia.
      exact (proj1 (Forall_lookup _ _) Hbytes i x Hx).
  - rewrite hex_string_to_binary_odd_length in Hrun by lia.
    injection Hrun as _ <-. exact Hbytes.
Qed.

Lemma bytes_stay_bytes_witness :
  Forall (fun b => 0 <= b <= 255) [255; 9; 255].
Proof.
  apply (bytes_stay_bytes "fF09zz" [0; 255; 255] 0 [255; 9; 255]).
  - by_computation.
  - repeat constructor; by_computation.
  - by_computation.
Defined.

(** X7: the decoder reads nothing behind the terminator: two memories that
    hold the same C string give the same result. *)
Theorem reads_stop_at_terminator mem1 mem2 buf :
  c_str mem1 = c_str mem2 -> strlen mem1 <= INT_MAX ->
  hex_string_to_binary mem1 buf = hex_string_to_binary mem2 buf.
Proof.
  intros Hsame Hmax.
  assert (Hlen : strlen mem2 = strlen mem1) by (unfold strlen; rewrite Hsame; reflexivity).
  rewrite (hex_string_to_binary_c_str mem1), (hex_string_to_binary_c_str mem2), Hsame;
    [reflexivity|lia|exact Hmax].
Qed.

Lemma reads_stop_at_terminator_witness :
  hex_string_to_binary (String "4" (String "f" (String NUL "zz"))) [7; 7]
  = hex_string_to_binary "4f" [7; 7].
Proof.
  apply (reads_stop_at_terminator (String "4" (String "f" (String NUL "zz"))) "4f" [7; 7]);
    by_computation.
Defined.

(** ** Decoding what was encoded *)

Ltac each_nibble n :=
  let p := fresh "p" in
  destruct n as [|p|p]; [reflexivity| |lia];
  repeat (destruct p as [p|p|]; try reflexivity; try lia).

Lemma nibble_hex_char_upper n : 0 <= n <= 15 -> nibble (hex_char_upper n) = n.
Proof. intros Hn. each_nibble n. Qed.

Lemma hex_char_upper_is_hex n : 0 <= n <= 15 -> is_hex_digit (hex_char_upper n) = true.
Proof. intros Hn. each_nibble n. Qed.

Lemma hex_char_upper_not_nul n :
  0 <= n <= 15 -> Ascii.eqb (hex_char_upper n) NUL = false.
Proof. intros Hn. each_nibble n. Qed.

Lemma byte_nibbles b :
  0 <= b <= 255 -> 0 <= b / 16 <= 15 /\ 0 <= b mod 16 <= 15 /\ 16 * (b / 16) + b mod 16 = b.
Proof.
  intros Hb. pose proof (Z.div_mod b 16 ltac:(lia)).
  pose proof (Z.mod_pos_bound b 16 ltac:(lia)). lia.
Qed.

Lemma length_encode_upper bytes :
  String.length (encode_upper bytes) = (2 * length bytes)%nat.
Proof.
  induction bytes as [|b rest IH]; [reflexivity|].
  cbn [encode_upper String.length length]. rewrite IH. lia.
Qed.

Lemma c_str_encode_upper bytes :
  Forall (fun b => 0 <= b <= 255) bytes -> c_str (encode_upper bytes) = encode_upper bytes.
Proof.
  induction 1 as [|b rest Hb _ IH]; [reflexivity|].
  destruct (byte_nibbles b Hb) as (Hhi & Hlo & _).
  cbn [encode_upper c_str].
  rewrite (hex_char_upper_not_nul _ Hhi), (hex_char_upper_not_nul _ Hlo), IH.
  reflexivity.
Qed.

Lemma first_invalid_encode_upper bytes :
  Forall (fun b => 0 <= b <= 255) bytes -> first_invalid (encode_upper bytes) = None.
Proof.
  induction 1 as [|b rest Hb _ IH]; [reflexivity|].
  destruct (byte_nibbles b Hb) as (Hhi & Hlo & _).
  cbn [encode_upper first_invalid].
  rewrite (hex_char_upper_is_hex _ Hhi), (hex_char_upper_is_hex _ Hlo), IH.
  reflexivity.
Qed.

Lemma spec_decode_encode_upper bytes :
  Forall (fun b => 0 <= b <= 255) bytes -> spec_decode (encode_upper bytes) = bytes.
Proof.
  induction 1 as [|b rest Hb _ IH]; [reflexivity|].
  destruct (byte_nibbles b Hb) as (Hhi & Hlo & Hsum).
  cbn [encode_upper spec_decode].
  rewrite (nibble_hex_char_upper _ Hhi), (nibble_hex_char_upper _ Hlo), IH, Hsum.
  reflexivity.
Qed.

(** X8: decoding the upper-case hex encoding of a byte sequence gives the
    bytes back: the count is their number, they fill the front of the
    buffer, and the rest of the buffer is as before. *)
Theorem decode_of_encoding bytes buf :
  Forall (fun b => 0 <= b <= 255) bytes ->
  2 * Z.of_nat (length bytes) <= INT_MAX ->
  (length bytes <= length buf)%nat ->
  hex_string_to_binary (encode_upper bytes) buf
  = Returns (Z.of_nat (length bytes), bytes ++ drop (length bytes) buf).
Proof.
  intros Hbytes Hmax Hcap.
  set (mem := encode_upper bytes).
  assert (Hc : c_str mem = mem) by (apply c_str_encode_upper; exact Hbytes).
  assert (Hlen : strlen mem = 2 * Z.of_nat (length bytes)).
  { unfold strlen. rewrite Hc. unfold mem. rewrite length_encode_upper. lia. }
  assert (Hhalf : strlen mem / 2 = Z.of_nat (length bytes)).
  { rewrite Hlen, Z.mul_comm, Z.div_mul; lia. }
  assert (Heven : strlen mem mod 2 = 0).
  { rewrite Hlen, Z.mul_comm. apply Z.mod_mul. lia. }
  assert (Hhex : all_hex mem = true).
  { unfold all_hex. rewrite Hc. unfold mem.
    rewrite first_invalid_encode_upper by exact Hbytes. reflexivity. }
  destruct (hex_string_to_binary_success mem buf Hhex Heven)
    as (buf' & Hrun & Hsame & Hpairs & Hframe); [lia..|].
  rewrite Hrun, Hhalf. do 2 f_equal.
  rewrite <- (take_drop (length bytes) buf'). f_equal.
  - pose proof (decoded_prefix mem buf' Heven Hpairs) as Hd.
    rewrite Hhalf, Nat2Z.id, Hc in Hd. rewrite Hd.
    apply spec_decode_encode_upper. exact Hbytes.
  - apply list_eq. intros i. rewrite !lookup_drop. apply Hframe. lia.
Qed.

Lemma decode_of_encoding_witness :
  hex_string_to_binary (encode_upper [0; 171; 255]) [7; 7; 7; 7]
  = Returns (Z.of_nat (length [0; 171; 255]),
             [0; 171; 255] ++ drop (length [0; 171; 255]) [7; 7; 7; 7]).
Proof.
  apply (decode_of_encoding [0; 171; 255] [7; 7; 7; 7]).
  - repeat constructor; by_computation.
  - by_computation.
  - vm_compute. repeat constructor.
Defined.

(** X9: two hex strings that decode to the same result are the same string
    up to the case of their digits. *)
Theorem equal_decodings_differ_in_case_only mem1 mem2 buf :
  all_hex mem1 = true -> strlen mem1 mod 2 = 0 -> strlen mem1 <= INT_MAX ->
  strlen mem1 / 2 <= Z.of_nat (length buf) ->
  all_hex mem2 = true -> strlen mem2 mod 2 = 0 -> strlen mem2 <= INT_MAX ->
  strlen mem2 / 2 <= Z.of_nat (length buf) ->
  hex_string_to_binary mem1 buf = hex_string_to_binary mem2 buf ->
  uppercase (c_str mem1) = uppercase (c_str mem2).
Proof.
  intros Hhex1 Heven1 Hmax1 Hcap1 Hhex2 Heven2 Hmax2 Hcap2 Hsame.
  destruct (hex_string_to_binary_success mem1 buf Hhex1 Heven1 Hmax1 Hcap1)
    as (b1 & Hrun1 & _ & Hpairs1 & _).
  destruct (hex_string_to_binary_success mem2 buf Hhex2 Heven2 Hmax2 Hcap2)
    as (b2 & Hrun2 & _ & Hpairs2 & _).
  rewrite Hrun1, Hrun2 in Hsame. injection Hsame as Hhalf ->.
  pose proof (decoded_prefix mem1 b2 Heven1 Hpairs1) as Hd1.
  pose proof (decoded_prefix mem2 b2 Heven2 Hpairs2) as Hd2.
  rewrite Hhalf, Hd2 in Hd1.
  unfold all_hex in Hhex1, Hhex2.
  destruct (first_invalid (c_str mem1)) eqn:H1; [discriminate|].
  destruct (first_invalid (c_str mem2)) eqn:H2; [discriminate|].
  rewrite <- (encode_spec_decode (c_str mem1) H1 (strlen_even_nat _ Heven1)).
  rewrite <- (encode_spec_decode (c_str mem2) H2 (strlen_even_nat _ Heven2)).
  rewrite Hd1. reflexivity.
Qed.

Lemma equal_decodings_differ_in_case_only_witness :
  uppercase (c_str "c0De") = uppercase (c_str "C0dE").
Proof.
  apply (equal_decodings_differ_in_case_only "c0De" "C0dE" [7; 7]); by_computation.
Defined.

(** * Further properties of the dataset builder *)

(** The exact result of the decoder on a string of hex digits. *)
Lemma hex_string_to_binary_valid_result mem buf :
  all_hex mem = true -> strlen mem mod 2 = 0 -> strlen mem <= INT_MAX ->
  strlen mem / 2 <= Z.of_nat (length buf) ->
  hex_string_to_binary mem buf
  = Returns (strlen mem / 2,
             spec_decode (c_str mem) ++ drop (Z.to_nat (strlen mem / 2)) buf).
Proof.
  intros Hhex Heven Hmax Hcap.
  destruct (hex_string_to_binary_success mem buf Hhex Heven Hmax Hcap)
    as (buf' & Hrun & _ & Hpairs & Hframe).
  rewrite Hrun. do 2 f_equal.
  rewrite <- (take_drop (Z.to_nat (strlen mem / 2)) buf'). f_equal.
  - apply decoded_prefix; assumption.
  - apply list_eq. intros i. rewrite !lookup_drop. apply Hframe. lia.
Qed.

(** What a nonzero stored count tells about a configured string that has
    passed the length test: the test gives the decoder room in the array and
    bounds the count. *)
Lemma nonzero_count_inv max_len dataset uninit count buf' :
  max_len <= 255 -> strlen dataset <= 2 * max_len ->
  hex_string_to_binary dataset (uninit_tlvs max_len uninit) = Returns (count, buf') ->
  to_uint8 count <> 0 ->
  all_hex dataset = true /\ strlen dataset mod 2 = 0 /\
  1 <= strlen dataset / 2 <= max_len /\
  {| mTlvs := buf'; mLength := to_uint8 count |} = decoded_tlvs max_len dataset uninit.
Proof.
  intros Hu8 Htest Hrun Hnz. pose proof (strlen_nonneg dataset) as Hn0.
  assert (Hhalf : strlen dataset / 2 <= max_len)
    by (apply Z.div_le_upper_bound; lia).
  assert (Hmax : strlen dataset <= INT_MAX) by (unfold INT_MAX; lia).
  assert (Hcap : strlen dataset / 2 <= Z.of_nat (length (uninit_tlvs max_len uninit)))
    by (rewrite length_uninit_tlvs; lia).
  pose proof (Z.mod_pos_bound (strlen dataset) 2 ltac:(lia)) as Hb.
  destruct (Z.eq_dec (strlen dataset mod 2) 0) as [Heven|Hodd].
  - pose proof (hex_string_to_binary_even_length dataset
                  (uninit_tlvs max_len uninit) Hmax Heven) as Hpost.
    rewrite Hrun in Hpost. cbn [loop_post] in Hpost.
    destruct Hpost as (_ & m & Hm & Hdone & _ & _ & [[-> ->]|(_ & _ & ->)]);
      [|contradiction Hnz; reflexivity].
    assert (Hpos : 0 < strlen dataset / 2).
    { destruct (Z.eq_dec (strlen dataset / 2) 0) as [E|E]; [|lia].
      rewrite E in Hnz. contradiction Hnz. reflexivity. }
    assert (Hhex : all_hex dataset = true).
    { apply all_pairs_valid_all_hex; [|exact Heven]. intros j Hj. apply Hdone, Hj. }
    split; [exact Hhex|]. split; [exact Heven|]. split; [lia|].
    rewrite hex_string_to_binary_valid_result in Hrun by assumption.
    injection Hrun as <-. unfold decoded_tlvs.
    rewrite to_uint8_small by lia. reflexivity.
  - rewrite hex_string_to_binary_odd_length in Hrun by lia.
    injection Hrun as <- _. contradiction Hnz. reflexivity.
Qed.

(** What a run that returns has gone through. *)
Lemma done_run_inv max_len dataset instance uninit uninit_len :
  snd (create_config_network max_len dataset instance uninit uninit_len) = Done tt ->
  exists count buf',
    hex_string_to_binary dataset (uninit_tlvs max_len uninit) = Returns (count, buf') /\
    to_uint8 count <> 0 /\
    link_setup_ok instance = true /\
    to_uint16 (strlen dataset) <= max_len * 2 /\
    stack_accepts instance {| mTlvs := buf'; mLength := to_uint8 count |} = true /\
    fst (create_config_network max_len dataset instance uninit uninit_len)
    = completed_trace {| mTlvs := buf'; mLength := to_uint8 count |}.
Proof.
  unfold create_config_network, link_setup_ok, stack_accepts, completed_trace,
    bind, call, emit, abort, ret, of_result.
  cbn [mTlvs].
  destruct (ot_failed (otLinkSetPollPeriod instance _)); [discriminate|].
  destruct (ot_failed (otThreadSetLinkMode instance _)); [discriminate|].
  destruct (Z.gtb_spec (to_uint16 (strlen dataset)) (max_len * 2)) as [Hgt|Hle];
    [discriminate|].
  destruct (hex_string_to_binary dataset (uninit_tlvs max_len uninit))
    as [[count buf']| |]; [|discriminate..].
  cbn [fst snd mLength].
  destruct (Z.eqb_spec (to_uint8 count) 0) as [Hz|Hnz]; [discriminate|].
  destruct (ot_failed (otDatasetSetActiveTlvs instance _)) eqn:H3; [discriminate|].
  destruct (ot_failed (otIp6SetEnabled instance true)); [discriminate|].
  destruct (ot_failed (otThreadSetEnabled instance true)); [discriminate|].
  intros _. exists count, buf'. rewrite H3.
  split; [reflexivity|]. split; [exact Hnz|]. split; [reflexivity|].
  split; [exact Hle|]. split; reflexivity.
Qed.

(** X10: for a configured string of fewer than 2^16 characters, a run of
    [create_config_network] that returns has made exactly the six calls, in
    order, without logging; the stack accepted every one of them, the string
    passed the length test and is a non-empty even-length hex string, and
    the dataset handed over is its decoded form. *)
Theorem completed_run_is_valid max_len dataset instance uninit uninit_len :
  max_len <= 255 -> strlen dataset < 2 ^ 16 ->
  snd (create_config_network max_len dataset instance uninit uninit_len) = Done tt ->
  fst (create_config_network max_len dataset instance uninit uninit_len)
  = completed_trace (decoded_tlvs max_len dataset uninit) /\
  link_setup_ok instance = true /\
  stack_accepts instance (decoded_tlvs max_len dataset uninit) = true /\
  all_hex dataset = true /\ strlen dataset mod 2 = 0 /\
  1 <= strlen dataset / 2 <= max_len.
Proof.
  intros Hu8 H64 Hdone. pose proof (strlen_nonneg dataset) as Hn0.
  destruct (done_run_inv _ _ _ _ _ Hdone)
    as (count & buf' & Hrun & Hnz & Hlink & Htest & Hacc & Htrace).
  rewrite to_uint16_small in Htest by lia.
  assert (Hguard : strlen dataset <= 2 * max_len) by lia.
  destruct (nonzero_count_inv _ _ _ _ _ Hu8 Hguard Hrun Hnz)
    as (Hhex & Heven & Hhalf & Hd).
  rewrite Hd in Hacc, Htrace. repeat split; try assumption; lia.
Qed.

Lemma completed_run_is_valid_witness :
  fst (create_config_network 4 "0abC" ot_ok (fun _ => 0) 0)
  = completed_trace (decoded_tlvs 4 "0abC" (fun _ => 0)) /\
  link_setup_ok ot_ok = true /\
  stack_accepts ot_ok (decoded_tlvs 4 "0abC" (fun _ => 0)) = true /\
  all_hex "0abC" = true /\ strlen "0abC" mod 2 = 0 /\
  1 <= strlen "0abC" / 2 <= 4.
Proof.
  apply (completed_run_is_valid 4 "0abC" ot_ok (fun _ => 0) 0); by_computation.
Defined.

(** X11: a non-empty even-length hex string of at most twice the maximum
    length, on a stack that accepts every call, makes the run return after
    the six calls, with the decoded dataset handed over. *)
Theorem valid_dataset_completes max_len dataset instance uninit uninit_len :
  max_len <= 255 ->
  all_hex dataset = true -> strlen dataset mod 2 = 0 ->
  0 < strlen dataset <= 2 * max_len ->
  link_setup_ok instance = true ->
  stack_accepts instance (decoded_tlvs max_len dataset uninit) = true ->
  create_config_network max_len dataset instance uninit uninit_len
  = (completed_trace (decoded_tlvs max_len dataset uninit), Done tt).
Proof.
  intros Hu8 Hhex Heven Hlen Hlink Hacc.
  apply link_setup_ok_true in Hlink as [H1 H2].
  unfold stack_accepts in Hacc.
  apply andb_prop in Hacc as [Hacc H5]. apply andb_prop in Hacc as [H3 H4].
  apply negb_true_iff in H3, H4, H5.
  pose proof (even_halves _ (strlen_nonneg dataset) Heven) as Hn.
  unfold create_config_network, completed_trace, bind, call, emit, abort, ret,
    of_result.
  rewrite H1, H2. rewrite to_uint16_small by lia.
  destruct (Z.gtb_spec (strlen dataset) (max_len * 2)); [lia|].
  cbn [mTlvs].
  rewrite hex_string_to_binary_valid_result;
    [|assumption..|unfold INT_MAX; lia|rewrite length_uninit_tlvs; lia].
  cbn [fst snd mLength]. rewrite to_uint8_small by lia.
  destruct (Z.eqb_spec (strlen dataset / 2) 0) as [E|_]; [lia|].
  fold (decoded_tlvs max_len dataset uninit).
  rewrite H3, H4, H5. reflexivity.
Qed.

Lemma valid_dataset_completes_witness :
  create_config_network 4 "0abC" ot_ok (fun _ => 0) 0
  = (completed_trace (decoded_tlvs 4 "0abC" (fun _ => 0)), Done tt).
Proof.
  apply (valid_dataset_completes 4 "0abC" ot_ok (fun _ => 0) 0);
    first [by_computation | split; by_computation].
Defined.

(** X12: [create_config_network] never aborts silently: in a run that ends
    in [abort()] the last thing done is an error log. *)
Theorem abort_is_logged max_len dataset instance uninit uninit_len :
  snd (create_config_network max_len dataset instance uninit uninit_len) = Aborted ->
  exists msg,
    last (fst (create_config_network max_len dataset instance uninit uninit_len))
    = Some (LogE msg).
Proof.
  unfold create_config_network, bind, call, emit, abort, ret, of_result.
  cbn [mTlvs].
  destruct (ot_failed (otLinkSetPollPeriod instance _)); [eexists; reflexivity|].
  destruct (ot_failed (otThreadSetLinkMode instance _)); [eexists; reflexivity|].
  destruct (to_uint16 (strlen dataset) >? max_len * 2); [eexists; reflexivity|].
  destruct (hex_string_to_binary dataset (uninit_tlvs max_len uninit))
    as [[count buf']| |]; [|discriminate..].
  cbn [fst snd mLength].
  destruct (to_uint8 count =? 0); [eexists; reflexivity|].
  destruct (ot_failed (otDatasetSetActiveTlvs instance _)); [eexists; reflexivity|].
  destruct (ot_failed (otIp6SetEnabled instance true)); [eexists; reflexivity|].
  destruct (ot_failed (otThreadSetEnabled instance true));
    [eexists; reflexivity|discriminate].
Qed.

Lemma abort_is_logged_witness :
  exists msg,
    last (fst (create_config_network 4 "0abC0abC0abC" ot_ok (fun _ => 0) 0))
    = Some (LogE msg).
Proof.
  apply (abort_is_logged 4 "0abC0abC0abC" ot_ok (fun _ => 0) 0). by_computation.
Defined.

(** X13: Thread is enabled only on a configured stack: when
    [otThreadSetEnabled] is called, it is called with [true], the IP6 link
    was enabled before, and a dataset was handed over and accepted. *)
Theorem thread_enabled_after_dataset max_len dataset instance uninit uninit_len b :
  In (CallThreadSetEnabled b)
     (fst (create_config_network max_len dataset instance uninit uninit_len)) ->
  b = true /\
  otIp6SetEnabled instance true = OT_ERROR_NONE /\
  exists d,
    In (CallDatasetSetActiveTlvs d)
       (fst (create_config_network max_len dataset instance uninit uninit_len)) /\
    otDatasetSetActiveTlvs instance d = OT_ERROR_NONE.
Proof.
  unfold create_config_network, bind, call, emit, abort, ret, of_result.
  cbn [mTlvs].
  destruct (ot_failed (otLinkSetPollPeriod instance _));
    [cbn; intros [H|[H|[]]]; discriminate H|].
  destruct (ot_failed (otThreadSetLinkMode instance _));
    [cbn; intros [H|[H|[H|[]]]]; discriminate H|].
  destruct (to_uint16 (strlen dataset) >? max_len * 2);
    [cbn; intros [H|[H|[H|[]]]]; discriminate H|].
  destruct (hex_string_to_binary dataset (uninit_tlvs max_len uninit))
    as [[count buf']| |];
    [|cbn; intros [H|[H|[H|[]]]]; discriminate H..].
  cbn [fst snd mLength].
  destruct (to_uint8 count =? 0);
    [cbn; intros [H|[H|[H|[H|[]]]]]; discriminate H|].
  destruct (otDatasetSetActiveTlvs instance _) eqn:H3; cbn [ot_failed];
    [|cbn; intros [H|[H|[H|[H|[H|[]]]]]]; discriminate H].
  destruct (otIp6SetEnabled instance true) eqn:H4; cbn [ot_failed];
    [|cbn; intros [H|[H|[H|[H|[H|[H|[]]]]]]]; discriminate H].
  intros Hin.
  assert (Hb : b = true).
  { destruct (ot_failed (otThreadSetEnabled instance true)); cbn in Hin;
      repeat (destruct Hin as [H|Hin]; [try discriminate H|]);
      try contradiction; injection H as <-; reflexivity. }
  split; [exact Hb|]. split; [reflexivity|].
  exists {| mTlvs := buf'; mLength := to_uint8 count |}.
  split; [|exact H3].
  destruct (ot_failed (otThreadSetEnabled instance true)); cbn; tauto.
Qed.

Lemma thread_enabled_after_dataset_witness :
  true = true /\
  otIp6SetEnabled ot_ok true = OT_ERROR_NONE /\
  exists d,
    In (CallDatasetSetActiveTlvs d)
       (fst (create_config_network 4 "0abC" ot_ok (fun _ => 0) 0)) /\
    otDatasetSetActiveTlvs ot_ok d = OT_ERROR_NONE.
Proof.
  apply (thread_enabled_after_dataset 4 "0abC" ot_ok (fun _ => 0) 0 true).
  vm_compute. do 5 right. left. reflexivity.
Defined.

(** X14: a configured string of at most twice the maximum length that is
    empty, of odd length, or holds a character that is no hex digit ends the
    run as a failed conversion: the decoder is called, the error is logged,
    and nothing is handed to the network stack. *)
Theorem bad_dataset_fails_conversion max_len dataset instance uninit uninit_len :
  link_setup_ok instance = true ->
  strlen dataset < 2 ^ 16 -> strlen dataset <= 2 * max_len ->
  strlen dataset = 0 \/ strlen dataset mod 2 = 1 \/ all_hex dataset = false ->
  create_config_network max_len dataset instance uninit uninit_len = DatasetDecodeFailed.
Proof.
  intros Hlink H64 Hlen Hbad. pose proof (strlen_nonneg dataset) as Hn0.
  assert (Hmax : strlen dataset <= INT_MAX) by (unfold INT_MAX; lia).
  assert (Hcap : strlen dataset / 2 <= Z.of_nat (length (uninit_tlvs max_len uninit))).
  { rewrite length_uninit_tlvs.
    assert (strlen dataset / 2 <= max_len) by (apply Z.div_le_upper_bound; lia).
    lia. }
  assert (Hzero : exists buf',
    hex_string_to_binary dataset (uninit_tlvs max_len uninit) = Returns (0, buf')).
  { pose proof (Z.mod_pos_bound (strlen dataset) 2 ltac:(lia)) as Hb.
    destruct (Z.eq_dec (strlen dataset mod 2) 0) as [Heven|Hodd].
    - destruct Hbad as [Hempty|[Hodd|Hnothex]]; [|lia|].
      + pose proof (hex_string_to_binary_even_length dataset
                      (uninit_tlvs max_len uninit) Hmax Heven) as Hpost.
        assert (Hh : strlen dataset / 2 = 0) by (rewrite Hempty; reflexivity).
        destruct (hex_string_to_binary dataset (uninit_tlvs max_len uninit))
          as [[count buf']| |]; cbn [loop_post] in Hpost; [| |contradiction].
        * exists buf'.
          destruct Hpost as (_ & m & _ & _ & _ & _ & [[_ ->]|(_ & _ & ->)]);
            [rewrite Hh|]; reflexivity.
        * destruct Hpost as (m & Hm & _). lia.
      + unfold all_hex in Hnothex.
        destruct (first_invalid (c_str dataset)) as [p|] eqn:Hp; [|discriminate].
        destruct (first_invalid_some _ _ Hp) as (Hlt & _ & _).
        destruct (hex_string_to_binary_failure dataset (uninit_tlvs max_len uninit) p
                    Hp Heven Hmax) as (buf' & Hrun & _).
        { etransitivity; [|exact Hcap]. apply Z.div_le_mono; unfold strlen; lia. }
        exists buf'. exact Hrun.
    - exists (uninit_tlvs max_len uninit).
      apply hex_string_to_binary_odd_length; lia. }
  destruct Hzero as [buf' Hrun].
  eapply zero_count_rejected; [exact Hlink| |exact Hrun|reflexivity].
  rewrite to_uint16_small; lia.
Qed.

Lemma bad_dataset_fails_conversion_witness :
  create_config_network 4 "0ab" ot_ok (fun _ => 0) 0 = DatasetDecodeFailed
  /\ create_config_network 4 "0xab" ot_ok (fun _ => 0) 0 = DatasetDecodeFailed.
Proof.
  split.
  - apply (bad_dataset_fails_conversion 4 "0ab" ot_ok (fun _ => 0) 0);
      [by_computation..|right; left; by_computation].
  - apply (bad_dataset_fails_conversion 4 "0xab" ot_ok (fun _ => 0) 0);
      [by_computation..|right; right; by_computation].
Defined.

Lemma create_config_network_defined_witness :
  snd (create_config_network 2 "0a0b0c0d0e" ot_ok (fun _ => 0) 0) <> Undef /\
  snd (create_config_network 2 "0a0b0c0d0e" ot_ok (fun _ => 0) 0) <> NoFuel.
Proof.
  apply (create_config_network_defined 2 "0a0b0c0d0e" ot_ok (fun _ => 0) 0).
  by_computation.
Defined.

(** X16: below 2^16 characters the length test is exact: the run ends as
    [DatasetTooLong], before the decoder is called, exactly when the string
    has more than twice the maximum length. *)
Theorem length_test_exact max_len dataset instance uninit uninit_len :
  link_setup_ok instance = true -> strlen dataset < 2 ^ 16 ->
  (create_config_network max_len dataset instance uninit uninit_len = DatasetTooLong
   <-> strlen dataset > 2 * max_len).
Proof.
  intros Hlink H64. pose proof (strlen_nonneg dataset) as Hn0.
  assert (H16 : to_uint16 (strlen dataset) = strlen dataset)
    by (apply to_uint16_small; lia).
  split.
  - intros Hrun.
    destruct (Z.le_gt_cases (strlen dataset) (2 * max_len)) as [Hle|Hgt]; [|lia].
    pose proof (length_test_accepts max_len dataset instance uninit uninit_len Hlink
                  ltac:(lia)) as Hcall.
    rewrite Hrun in Hcall. cbn in Hcall.
    destruct Hcall as [H|[H|[H|[]]]]; discriminate H.
  - intros Hgt. apply length_test_rejects; [exact Hlink|lia].
Qed.

Lemma length_test_exact_witness :
  (create_config_network 2 "0a0b0c" ot_ok (fun _ => 0) 0 = DatasetTooLong
   <-> strlen "0a0b0c" > 2 * 2)
  /\ (create_config_network 2 "0a0b" ot_ok (fun _ => 0) 0 = DatasetTooLong
      <-> strlen "0a0b" > 2 * 2).
Proof.
  split.
  - apply (length_test_exact 2 "0a0b0c" ot_ok (fun _ => 0) 0); by_computation.
  - apply (length_test_exact 2 "0a0b" ot_ok (fun _ => 0) 0); by_computation.
Defined.

(** * The task *)

Lemma sys_in_bind {A B} (m : Sys.run A) (k : A -> Sys.run B) e :
  In e (fst (Sys.bind m k)) <->
  In e (fst m) \/ exists a, snd m = inl a /\ In e (fst (k a)).
Proof.
  destruct m as [t [a|s]]; cbn.
  - destruct (k a) as [t' r] eqn:Hk; cbn. rewrite in_app_iff. split.
    + intros [H|H]; [left; exact H|right]. exists a. rewrite Hk. split; [reflexivity|exact H].
    + intros [H|(a' & Ha & H)]; [left; exact H|right].
      injection Ha as <-. rewrite Hk in H. exact H.
  - split; [intros H; left; exact H|].
    intros [H|(a' & Ha & _)]; [exact H|discriminate Ha].
Qed.

Lemma sys_snd_bind {A B} (m : Sys.run A) (k : A -> Sys.run B) r :
  snd (Sys.bind m k) = inl r <-> exists a, snd m = inl a /\ snd (k a) = inl r.
Proof.
  destruct m as [t [a|s]]; cbn.
  - destruct (k a) as [t' e] eqn:Hk; cbn. split.
    + intros H. exists a. rewrite Hk. split; [reflexivity|exact H].
    + intros (a' & Ha & H). injection Ha as <-. rewrite Hk in H. exact H.
  - split; [discriminate|]. intros (a' & Ha & _). discriminate Ha.
Qed.

Lemma sys_in_lift {A} (p : prog A) e :
  In e (fst (Sys.lift p)) <-> exists e', e = OpenThread e' /\ In e' (fst p).
Proof.
  unfold Sys.lift. cbn [fst]. rewrite in_map_iff. split.
  - intros (e' & <- & H). exists e'. split; [reflexivity|exact H].
  - intros (e' & -> & H). exists e'. split; [reflexivity|exact H].
Qed.

Lemma sys_snd_lift {A} (p : prog A) a :
  snd (Sys.lift p) = inl a <-> snd p = Done a.
Proof.
  unfold Sys.lift. cbn [snd]. destruct (snd p); split; intros H;
    try discriminate H; congruence.
Qed.

Lemma in_ESP_ERROR_CHECK cfg x e : ~ In e (fst (ESP_ERROR_CHECK cfg x)).
Proof.
  unfold ESP_ERROR_CHECK. destruct (NDEBUG cfg); [|destruct (esp_failed x)]; cbn; tauto.
Qed.

Lemma in_assert cfg c e : ~ In e (fst (assert cfg c)).
Proof.
  unfold assert. destruct (NDEBUG cfg); [|destruct c]; cbn; tauto.
Qed.

Lemma ESP_ERROR_CHECK_passed cfg x :
  NDEBUG cfg = false -> snd (ESP_ERROR_CHECK cfg x) = inl tt -> x = ESP_OK.
Proof.
  unfold ESP_ERROR_CHECK. intros ->. destruct x; cbn; [reflexivity|discriminate].
Qed.

(** The calls [init_openthread_netif] makes. *)
Lemma in_init_openthread_netif cfg sdk config e :
  In e (fst (init_openthread_netif cfg sdk config)) ->
  e = CallEspNetifNew \/ e = CallEspOpenthreadNetifGlueInit config \/ e = CallEspNetifAttach.
Proof.
  unfold init_openthread_netif. intros H.
  repeat (apply sys_in_bind in H as [H|(? & _ & H)];
          [first [ exfalso; exact (in_ESP_ERROR_CHECK _ _ _ H)
                 | exfalso; exact (in_assert _ _ _ H)
                 | cbn in H; destruct H as [<-|[]]; tauto ] |]).
  cbn in H. contradiction.
Qed.

(** The main loop is launched only after [create_config_network] has
    returned; what that run did is then part of what the task did. *)
Lemma launch_inv cfg sdk :
  In CallEspOpenthreadLaunchMainloop (fst (ot_task_worker cfg sdk)) ->
  snd (create_config_network (dataset_max_length cfg) (network_dataset cfg)
         (esp_openthread_get_instance sdk) (stack_bytes sdk) (stack_len sdk)) = Done tt /\
  forall e,
    In e (fst (create_config_network (dataset_max_length cfg) (network_dataset cfg)
                 (esp_openthread_get_instance sdk) (stack_bytes sdk) (stack_len sdk))) ->
    In (OpenThread e) (fst (ot_task_worker cfg sdk)).
Proof.
  unfold ot_task_worker. intros H.
  apply sys_in_bind in H as [H|(rc & H1 & H)];
    [cbn in H; destruct H as [H|[]]; discriminate H|].
  apply sys_in_bind in H as [H|(u2 & H2 & H)];
    [exfalso; exact (in_ESP_ERROR_CHECK _ _ _ H)|].
  apply sys_in_bind in H as [H|(u3 & H3 & H)].
  { destruct (CONFIG_OPENTHREAD_LOG_LEVEL_DYNAMIC cfg); cbn in H;
      [destruct H as [H|[]]; discriminate H|contradiction]. }
  apply sys_in_bind in H as [H|(netif & H4 & H)].
  { apply in_init_openthread_netif in H as [H|[H|H]]; discriminate H. }
  apply sys_in_bind in H as [H|(u5 & H5 & H)];
    [cbn in H; destruct H as [H|[]]; discriminate H|].
  apply sys_in_bind in H as [H|(instance & H6 & H)];
    [cbn in H; destruct H as [H|[]]; discriminate H|].
  cbn in H6. injection H6 as <-.
  apply sys_in_bind in H as [H|(u7 & H7 & _)].
  { apply sys_in_lift in H as (e' & He' & _). discriminate He'. }
  apply sys_snd_lift in H7. destruct u7. split; [exact H7|].
  intros e He.
  apply sys_in_bind. right. exists rc. split; [exact H1|].
  apply sys_in_bind. right. exists u2. split; [exact H2|].
  apply sys_in_bind. right. exists u3. split; [exact H3|].
  apply sys_in_bind. right. exists netif. split; [exact H4|].
  apply sys_in_bind. right. exists u5. split; [exact H5|].
  apply sys_in_bind. right. exists (esp_openthread_get_instance sdk).
  split; [reflexivity|].
  apply sys_in_bind. left. apply sys_in_lift. exists e. split; [reflexivity|exact He].
Qed.

(** X17: for a configured string of fewer than 2^16 characters, the task
    launches the main loop of the network stack only with a valid
    configuration: the string passed the length test and is a non-empty
    even-length hex string, its decoded form has been handed to the stack by
    the task, and the stack accepted it. *)
Theorem mainloop_needs_valid_dataset cfg sdk :
  dataset_max_length cfg <= 255 -> strlen (network_dataset cfg) < 2 ^ 16 ->
  In CallEspOpenthreadLaunchMainloop (fst (ot_task_worker cfg sdk)) ->
  all_hex (network_dataset cfg) = true /\
  strlen (network_dataset cfg) mod 2 = 0 /\
  1 <= strlen (network_dataset cfg) / 2 <= dataset_max_length cfg /\
  In (OpenThread (CallDatasetSetActiveTlvs
        (decoded_tlvs (dataset_max_length cfg) (network_dataset cfg) (stack_bytes sdk))))
     (fst (ot_task_worker cfg sdk)) /\
  stack_accepts (esp_openthread_get_instance sdk)
    (decoded_tlvs (dataset_max_length cfg) (network_dataset cfg) (stack_bytes sdk)) = true.
Proof.
  intros Hu8 H64 Hlaunch.
  pose proof (strlen_nonneg (network_dataset cfg)) as Hn0.
  destruct (launch_inv cfg sdk Hlaunch) as [Hdone Hsub].
  destruct (done_run_inv _ _ _ _ _ Hdone)
    as (count & buf' & Hrun & Hnz & _ & Htest & Hacc & Htrace).
  rewrite to_uint16_small in Htest by lia.
  assert (Hguard : strlen (network_dataset cfg) <= 2 * dataset_max_length cfg) by lia.
  destruct (nonzero_count_inv _ _ _ _ _ Hu8 Hguard Hrun Hnz)
    as (Hhex & Heven & Hhalf & Hd).
  rewrite Hd in Hacc, Htrace.
  split; [exact Hhex|]. split; [exact Heven|]. split; [exact Hhalf|].
  split; [|exact Hacc].
  apply Hsub. rewrite Htrace. cbn. tauto.
Qed.

Lemma mainloop_needs_valid_dataset_witness :
  all_hex (network_dataset cfg_example) = true /\
  strlen (network_dataset cfg_example) mod 2 = 0 /\
  1 <= strlen (network_dataset cfg_example) / 2 <= dataset_max_length cfg_example /\
  In (OpenThread (CallDatasetSetActiveTlvs
        (decoded_tlvs (dataset_max_length cfg_example) (network_dataset cfg_example)
           (stack_bytes sdk_ok))))
     (fst (ot_task_worker cfg_example sdk_ok)) /\
  stack_accepts (esp_openthread_get_instance sdk_ok)
    (decoded_tlvs (dataset_max_length cfg_example) (network_dataset cfg_example)
       (stack_bytes sdk_ok)) = true.
Proof.
  apply (mainloop_needs_valid_dataset cfg_example sdk_ok).
  - by_computation.
  - by_computation.
  - vm_compute. do 13 right. left. reflexivity.
Defined.

Lemma ot_power_save_init_result cfg sdk rc :
  snd (ot_power_save_init cfg sdk) = inl rc ->
  rc = if CONFIG_PM_ENABLE cfg then esp_pm_configure sdk (pinned_pm_config cfg) else ESP_OK.
Proof.
  unfold ot_power_save_init, pinned_pm_config.
  destruct (CONFIG_PM_ENABLE cfg); cbn; intros H; injection H as <-; reflexivity.
Qed.

(** X18: with the error checks active, [app_main] creates the task
    "ot_power_save_main" (stack 4096, priority 5) exactly when all five
    initialisation steps answer [ESP_OK]: NVS, the event loop, the network
    interfaces, the three event file descriptors and the power
    configuration. *)
Theorem task_created_iff_startup_ok cfg sdk :
  NDEBUG cfg = false ->
  (In (CallXTaskCreate "ot_power_save_main" 4096 5) (fst (app_main cfg sdk))
   <-> startup_ok cfg sdk).
Proof.
  intros Hchecks. unfold startup_ok. split.
  - unfold app_main. intros H.
    apply sys_in_bind in H as [H|(rc1 & H1 & H)];
      [cbn in H; destruct H as [H|[]]; discriminate H|].
    apply sys_in_bind in H as [H|(u1 & C1 & H)];
      [exfalso; exact (in_ESP_ERROR_CHECK _ _ _ H)|].
    apply sys_in_bind in H as [H|(rc2 & H2 & H)];
      [cbn in H; destruct H as [H|[]]; discriminate H|].
    apply sys_in_bind in H as [H|(u2 & C2 & H)];
      [exfalso; exact (in_ESP_ERROR_CHECK _ _ _ H)|].
    apply sys_in_bind in H as [H|(rc3 & H3 & H)];
      [cbn in H; destruct H as [H|[]]; discriminate H|].
    apply sys_in_bind in H as [H|(u3 & C3 & H)];
      [exfalso; exact (in_ESP_ERROR_CHECK _ _ _ H)|].
    apply sys_in_bind in H as [H|(rc4 & H4 & H)];
      [cbn in H; destruct H as [H|[]]; discriminate H|].
    apply sys_in_bind in H as [H|(u4 & C4 & H)];
      [exfalso; exact (in_ESP_ERROR_CHECK _ _ _ H)|].
    apply sys_in_bind in H as [H|(rc5 & H5 & H)].
    { unfold ot_power_save_init in H. destruct (CONFIG_PM_ENABLE cfg); cbn in H;
        [destruct H as [H|[]]; discriminate H|contradiction]. }
    apply sys_in_bind in H as [H|(u5 & C5 & _)];
      [exfalso; exact (in_ESP_ERROR_CHECK _ _ _ H)|].
    cbn in H1, H2, H3, H4.
    injection H1 as <-. injection H2 as <-. injection H3 as <-. injection H4 as <-.
    destruct u1, u2, u3, u4, u5.
    apply (ESP_ERROR_CHECK_passed _ _ Hchecks) in C1, C2, C3, C4, C5.
    apply ot_power_save_init_result in H5. rewrite C5 in H5.
    repeat split; try assumption.
    intros Hpm. rewrite Hpm in H5. symmetry. exact H5.
  - intros (H1 & H2 & H3 & H4 & H5).
    unfold app_main, ot_power_save_init, ESP_ERROR_CHECK.
    unfold pinned_pm_config in H5.
    rewrite Hchecks, H1, H2, H3, H4.
    destruct (CONFIG_PM_ENABLE cfg).
    + rewrite (H5 eq_refl). cbn. tauto.
    + cbn. tauto.
Qed.

Lemma task_created_iff_startup_ok_witness :
  In (CallXTaskCreate "ot_power_save_main" 4096 5) (fst (app_main cfg_example sdk_ok))
  <-> startup_ok cfg_example sdk_ok.
Proof.
  apply (task_created_iff_startup_ok cfg_example sdk_ok). reflexivity.
Defined.

(** X19: whatever power configuration [app_main] submits pins the CPU
    frequency: power management is compiled in, the maximum and the minimum
    frequency are both the default CPU frequency, and light sleep is asked
    for exactly when tickless idle is configured. *)
Theorem power_config_is_pinned cfg sdk config :
  In (CallEspPmConfigure config) (fst (app_main cfg sdk)) ->
  CONFIG_PM_ENABLE cfg = true /\
  max_freq_mhz config = CONFIG_ESP_DEFAULT_CPU_FREQ_MHZ cfg /\
  min_freq_mhz config = max_freq_mhz config /\
  light_sleep_enable config = CONFIG_FREERTOS_USE_TICKLESS_IDLE cfg.
Proof.
  unfold app_main. intros H.
  apply sys_in_bind in H as [H|(rc1 & _ & H)];
    [cbn in H; destruct H as [H|[]]; discriminate H|].
  apply sys_in_bind in H as [H|(u1 & _ & H)];
    [exfalso; exact (in_ESP_ERROR_CHECK _ _ _ H)|].
  apply sys_in_bind in H as [H|(rc2 & _ & H)];
    [cbn in H; destruct H as [H|[]]; discriminate H|].
  apply sys_in_bind in H as [H|(u2 & _ & H)];
    [exfalso; exact (in_ESP_ERROR_CHECK _ _ _ H)|].
  apply sys_in_bind in H as [H|(rc3 & _ & H)];
    [cbn in H; destruct H as [H|[]]; discriminate H|].
  apply sys_in_bind in H as [H|(u3 & _ & H)];
    [exfalso; exact (in_ESP_ERROR_CHECK _ _ _ H)|].
  apply sys_in_bind in H as [H|(rc4 & _ & H)];
    [cbn in H; destruct H as [H|[]]; discriminate H|].
  apply sys_in_bind in H as [H|(u4 & _ & H)];
    [exfalso; exact (in_ESP_ERROR_CHECK _ _ _ H)|].
  apply sys_in_bind in H as [H|(rc5 & _ & H)].
  - unfold ot_power_save_init in H. destruct (CONFIG_PM_ENABLE cfg); cbn in H;
      [|contradiction].
    destruct H as [H|[]]. injection H as <-. cbn. repeat split.
  - apply sys_in_bind in H as [H|(u5 & _ & H)];
      [exfalso; exact (in_ESP_ERROR_CHECK _ _ _ H)|].
    cbn in H. destruct H as [H|[]]. discriminate H.
Qed.

Lemma power_config_is_pinned_witness :
  CONFIG_PM_ENABLE cfg_example = true /\
  max_freq_mhz (pinned_pm_config cfg_example) = CONFIG_ESP_DEFAULT_CPU_FREQ_MHZ cfg_example /\
  min_freq_mhz (pinned_pm_config cfg_example) = max_freq_mhz (pinned_pm_config cfg_example) /\
  light_sleep_enable (pinned_pm_config cfg_example)
  = CONFIG_FREERTOS_USE_TICKLESS_IDLE cfg_example.
Proof.
  apply (power_config_is_pinned cfg_example sdk_ok (pinned_pm_config cfg_example)).
  vm_compute. do 4 right. left. reflexivity.
Defined.
